(** * Polyglot-CPP: the program lifecycle manager of [main.py]

    A shallow embedding of the artifact store, the expiration reaper,
    the build service, the execution service and the composite
    orchestrator, followed by the properties of the specification that
    are settled against it.

    The Python module keeps one global dictionary [cpp_files], mirrors it
    in the file [cpp_files.json], removes files with [os.remove] and
    spawns three kinds of external processes (the compiler, the compiled
    program and the profiler).  Here the dictionary is a [gmap], the
    interpreter state is an explicit [World], Python exceptions are the
    [Raise] outcome of a state-and-exception monad, and the external
    processes and the clock are oracles supplied by the caller. *)

From Stdlib Require Import ZArith String Ascii.
From stdpp Require Import base option list gmap strings pretty fin_maps.

Local Open Scope Z_scope.

(** ** Data model *)

(** One value of [cpp_files]: the three keys of the dictionary stored
    per [file_id]. *)
Record info := Info {
  output_path : string;
  source_path : string;
  expiration : string
}.

Global Instance info_eq_dec : EqDecision info.
Proof. solve_decision. Defined.

(** What [cpp_files.json] holds when [load_cpp_files] looks at it: no
    such file, a text that [json.load] rejects with [JSONDecodeError], or
    an object that maps ids to records of the three strings.  Contents of
    another kind (bytes that are not text, JSON of another shape) are not
    represented. *)
Inductive json_file :=
| Missing
| Malformed
| Valid (d : gmap string info).

Inductive level := INFO | WARNING | ERROR.

(** Effects that leave the interpreter, in the order they happen. *)
Inductive event :=
| EvLog (l : level) (msg : string)
| EvLoad
| EvSave (d : gmap string info)
| EvMakedirs (path : string)
| EvWrite (path : string)
| EvRemove (path : string)
| EvSpawn (argv : list string) (input : string)
| EvKill (argv : list string).

Global Instance level_eq_dec : EqDecision level.
Proof. solve_decision. Defined.
Global Instance event_eq_dec : EqDecision event.
Proof. solve_decision. Defined.

Record World := mkWorld {
  cpp_files : gmap string info;     (* the module-level dictionary *)
  json : json_file;                 (* cpp_files.json *)
  files : gmap string string;       (* regular files: path to content *)
  trace : list event
}.

(** The exceptions that the module can meet. *)
Inductive exn :=
| FileNotFoundError (filename : string)            (* an OSError *)
| TimeoutExpired (cmd : list string) (output : string)
| UnicodeDecodeError                               (* a ValueError *)
| KeyError (key : string).

(** [str(e)] for the f-string of the reaper's error log. *)
Definition str_exn (e : exn) : string :=
  match e with
  | FileNotFoundError f =>
      "[Errno 2] No such file or directory: '" +:+ f +:+ "'"
  | TimeoutExpired _ _ => "Command timed out"
  | UnicodeDecodeError => "'utf-8' codec can't decode byte"
  | KeyError k => "'" +:+ k +:+ "'"
  end.

Definition is_OSError (e : exn) : bool :=
  match e with FileNotFoundError _ => true | _ => false end.

(** The values returned to the caller (Python dictionaries). *)
Inductive response :=
| Created (file_id : string)
| Failure (error : string)
| Ran (stdout stderr : string) (diff : option string)
      (run_time : Z) (profiling_report : string)
| Combined (create_result run_result : response).

(** [r["success"]]; only ever read on a response of [_create_program]. *)
Definition success (r : response) : bool :=
  match r with
  | Created _ | Ran _ _ _ _ _ => true
  | Failure _ | Combined _ _ => false
  end.

(** ** External collaborators *)

(** A spawned process as [subprocess.run] sees it. *)
Record process := Process {
  duration : option Z;      (* microseconds until exit; None: never exits *)
  returncode : Z;           (* negative: killed by that signal *)
  p_stdout : string;        (* captured stdout (so far, if it is killed) *)
  p_stderr : string;
  gmon : option string;     (* profile data it leaves in gmon.out *)
  decodes : bool            (* its output is text in the locale's encoding *)
}.

Record CompletedProcess := Completed {
  c_returncode : Z;
  c_stdout : string;
  c_stderr : string
}.

(** Modelled from the spec: the external compiler (clang++), which is
    not part of the repository.  "success = zero exit status and a usable
    executable at the output path; failure = nonzero exit status with
    diagnostic text on its error stream".  The compiler is taken to be
    installed and to print text. *)
Record compilation := Compilation {
  cc_returncode : Z;
  cc_stdout : string;
  cc_stderr : string;
  cc_binary : string        (* the executable image written on success *)
}.

(** A matching block [(i, j, n)] of [difflib.SequenceMatcher]:
    [a[i:i+n] == b[j:j+n]]. *)
Definition block : Type := nat * nat * nat.

Record Env := mkEnv {
  base_dir : string;                              (* os.path.dirname(__file__) *)
  clang : string → compilation;                   (* source text to outcome *)
  machine : string → string → process;            (* executable image, stdin *)
  gprof_installed : bool;                         (* gprof is found on PATH *)
  gprof : option string → option string → string; (* image, gmon.out to report *)
  gprof_decodes : option string → option string → bool;
                                                  (* that report is text *)
  get_matching_blocks : list string → list string → list block
    (* SequenceMatcher(None, a, b).get_matching_blocks() *)
}.

(** The readings of [uuid.uuid4()] and [datetime.now()] during one call
    of [_create_program]. *)
Record build_clock := BuildClock {
  uuid4 : string;
  now_plus_one_day : string     (* (datetime.now() + timedelta(days=1)).isoformat() *)
}.

(** The readings of [datetime.now()] during one call of [_run_program]. *)
Record run_clock := RunClock {
  now : string;                 (* datetime.now().isoformat() of the expiry test *)
  start_time : Z;               (* microseconds *)
  end_time : Z
}.

(** ** State and exceptions *)

Inductive outcome (A : Type) :=
| Return (a : A)
| Raise (e : exn).
Arguments Return {A} a.
Arguments Raise {A} e.

Definition M (A : Type) : Type := World → outcome A * World.

Global Instance M_ret : MRet M := λ A a w, (Return a, w).
Global Instance M_bind : MBind M := λ A B f m w,
  match m w with
  | (Return a, w') => f a w'
  | (Raise e, w') => (Raise e, w')
  end.

Definition raise {A} (e : exn) : M A := λ w, (Raise e, w).

Definition pass : M unit := mret tt.

(** [try: body except <handled>: handler]. *)
Definition try_except {A} (body : M A) (handled : exn → bool)
    (handler : exn → M A) : M A := λ w,
  match body w with
  | (Raise e, w') => if handled e then handler e w' else (Raise e, w')
  | r => r
  end.

Definition emit (e : event) : M unit := λ w,
  (Return (), mkWorld (cpp_files w) (json w) (files w) (trace w ++ [e])).

Definition get_cpp_files : M (gmap string info) := λ w, (Return (cpp_files w), w).
Definition set_cpp_files (d : gmap string info) : M unit := λ w,
  (Return (), mkWorld d (json w) (files w) (trace w)).
Definition get_files : M (gmap string string) := λ w, (Return (files w), w).
Definition set_files (f : gmap string string) : M unit := λ w,
  (Return (), mkWorld (cpp_files w) (json w) f (trace w)).
Definition get_json : M json_file := λ w, (Return (json w), w).
Definition set_json (j : json_file) : M unit := λ w,
  (Return (), mkWorld (cpp_files w) j (files w) (trace w)).

(** ** Library primitives *)

Definition logging (l : level) (msg : string) : M unit := emit (EvLog l msg).

(** Python compares the ISO timestamps as strings, code point by code
    point. *)
Definition str_lt (a b : string) : bool := String.ltb a b.

Definition os_path_exists (path : string) : M bool :=
  f ← get_files; mret (bool_decide (is_Some (f !! path))).

Definition os_remove (path : string) : M unit :=
  f ← get_files;
  match f !! path with
  | None => raise (FileNotFoundError path)
  | Some _ => set_files (delete path f);; emit (EvRemove path)
  end.

(** [with open(path, "w") as f: f.write(content)] *)
Definition write_file (path content : string) : M unit :=
  f ← get_files; set_files (<[path := content]> f);; emit (EvWrite path).

Definition path_join (dir name : string) : string := dir +:+ "/" +:+ name.

Definition exceeds (d : option Z) (timeout : option Z) : bool :=
  match timeout, d with
  | None, _ => false
  | Some _, None => true
  | Some t, Some d => bool_decide (t < d)
  end.

(** [subprocess.run(argv, input=..., capture_output=True, text=True,
    timeout=...)] for a process whose behaviour is [p]: the child is
    killed and [TimeoutExpired] raised when it outlives the timeout;
    otherwise its output is decoded ([text=True]), which raises
    [UnicodeDecodeError] when it is not text. *)
Definition subprocess_run (argv : list string) (input : string)
    (p : process) (timeout : option Z) : M CompletedProcess :=
  emit (EvSpawn argv input);;
  f ← get_files;
  set_files (match gmon p with Some g => <["gmon.out" := g]> f | None => f end);;
  if exceeds (duration p) timeout
  then emit (EvKill argv);; raise (TimeoutExpired argv (p_stdout p))
  else if decodes p
  then mret (Completed (returncode p) (p_stdout p) (p_stderr p))
  else raise UnicodeDecodeError.

(** ** The artifact store *)

Definition CPP_FILES_JSON : string := "cpp_files.json".

(** The [try] around [json.load] catches [JSONDecodeError] only.  What
    it lets through (a file that is not text, a JSON value that is not an
    object of records) has no case in [json_file]: the definition and
    what is proved from it are about the three cases that it has. *)
Definition load_cpp_files : M unit :=
  j ← get_json;
  emit EvLoad;;
  match j with
  | Valid d => set_cpp_files d
  | Malformed => set_cpp_files ∅
  | Missing => set_cpp_files ∅
  end.

Definition save_cpp_files : M unit :=
  d ← get_cpp_files; set_json (Valid d);; emit (EvSave d).

(** [cpp_files.pop(file_id)] *)
Definition cpp_files_pop (file_id : string) : M info :=
  d ← get_cpp_files;
  match d !! file_id with
  | None => raise (KeyError file_id)
  | Some i => set_cpp_files (delete file_id d);; mret i
  end.

(** ** The expiration reaper *)

Definition is_expired (now : string) (i : info) : bool :=
  str_lt (expiration i) now.

(** The list comprehension over [cpp_files.items()].  The ids come in the
    order of [map_to_list] rather than in insertion order; what is proved
    about the loop below holds for the ids in any order. *)
Definition to_delete (now : string) (d : gmap string info) : list string :=
  (filter (λ kv, Is_true (is_expired now kv.2)) (map_to_list d)).*1.

Fixpoint cleanup_loop (ids : list string) : M unit :=
  match ids with
  | [] => pass
  | file_id :: rest =>
      i ← cpp_files_pop file_id;
      try_except
        (os_remove (source_path i);;
         os_remove (output_path i);;
         logging INFO ("Cleaned up expired file: " +:+ file_id))
        is_OSError
        (λ e, logging ERROR
                ("Error cleaning up file " +:+ file_id +:+ ": " +:+ str_exn e));;
      cleanup_loop rest
  end.

Definition cleanup_expired_files (now : string) : M unit :=
  d ← get_cpp_files;
  let ids := to_delete now d in
  cleanup_loop ids;;
  match ids with
  | [] => pass
  | _ :: _ => save_cpp_files
  end.

(** The [lifespan] hook that runs once when the server starts. *)
Definition lifespan (now : string) : M unit :=
  load_cpp_files;; cleanup_expired_files now.

(** ** String primitives of the Python runtime

    A [string] is read as a sequence of code points below 256. *)

(** The line boundaries of [str.splitlines] among those code points:
    LF, VT, FF, CR, FS, GS, RS and NEL. *)
Definition is_linebreak (c : ascii) : bool :=
  match nat_of_ascii c with
  | 10 | 11 | 12 | 13 | 28 | 29 | 30 | 133 => true
  | _ => false
  end%nat.

Definition starts_with_LF (s : string) : bool :=
  match s with
  | String c _ => Nat.eqb (nat_of_ascii c) 10
  | EmptyString => false
  end.

(** [s.splitlines(keepends=True)]; CR LF is one boundary. *)
Fixpoint splitlines (s : string) : list string :=
  match s with
  | EmptyString => []
  | String c r =>
      let rest := splitlines r in
      if is_linebreak c
         && negb (Nat.eqb (nat_of_ascii c) 13 && starts_with_LF r)
      then String c EmptyString :: rest
      else match rest with
           | [] => [String c EmptyString]
           | l :: ls => String c l :: ls
           end
  end.

(** [s.replace(old, new)] for a non-empty [old]: the occurrences are
    found left to right and do not overlap.  [skip] counts the characters
    of the current occurrence that are still to be dropped. *)
Fixpoint replace_go (old new : string) (skip : nat) (s : string) : string :=
  match s with
  | EmptyString => EmptyString
  | String c r =>
      match skip with
      | S k => replace_go old new k r
      | O =>
          if String.prefix old s
          then new +:+ replace_go old new (pred (String.length old)) r
          else String c (replace_go old new O r)
      end
  end.

Definition str_replace (old new s : string) : string := replace_go old new 0 s.

(** [s[:n]] *)
Fixpoint str_take (n : nat) (s : string) : string :=
  match n, s with
  | S n', String c r => String c (str_take n' r)
  | _, _ => EmptyString
  end.

(** [sep.join(ls)] *)
Definition str_join (sep : string) (ls : list string) : string :=
  String.concat sep ls.

(** ** [difflib.unified_diff]

    The generator and the grouping of the opcodes are those of the
    standard library, with its defaults ([n=3], no file dates, a line
    feed as line terminator); the matching blocks come from the
    environment. *)

Definition LF : string := String "010"%char EmptyString.

Inductive tag := op_replace | op_delete | op_insert | op_equal.

(** [(tag, i1, i2, j1, j2)] *)
Record opcode := Opcode {
  op_tag : tag;
  op_i1 : nat;
  op_i2 : nat;
  op_j1 : nat;
  op_j2 : nat
}.

Definition is_equal (c : opcode) : bool :=
  match op_tag c with op_equal => true | _ => false end.

(** The loop of [SequenceMatcher.get_opcodes] over the matching blocks,
    [i] and [j] being the ends of the block before. *)
Fixpoint get_opcodes_from (i j : nat) (blocks : list block) : list opcode :=
  match blocks with
  | [] => []
  | (ai, bj, size) :: rest =>
      (if (i <? ai)%nat && (j <? bj)%nat then [Opcode op_replace i ai j bj]
       else if (i <? ai)%nat then [Opcode op_delete i ai j bj]
       else if (j <? bj)%nat then [Opcode op_insert i ai j bj]
       else [])
      ++ (if (size =? 0)%nat then []
          else [Opcode op_equal ai (ai + size) bj (bj + size)])
      ++ get_opcodes_from (ai + size) (bj + size) rest
  end.

Definition get_opcodes (blocks : list block) : list opcode :=
  get_opcodes_from 0 0 blocks.

(** [codes[0] = tag, max(i1, i2-n), i2, max(j1, j2-n), j2] *)
Definition keep_tail (n : nat) (c : opcode) : opcode :=
  Opcode (op_tag c) (op_i1 c `max` (op_i2 c - n)) (op_i2 c)
         (op_j1 c `max` (op_j2 c - n)) (op_j2 c).

(** [codes[-1] = tag, i1, min(i2, i1+n), j1, min(j2, j1+n)] *)
Definition keep_head (n : nat) (c : opcode) : opcode :=
  Opcode (op_tag c) (op_i1 c) (op_i2 c `min` (op_i1 c + n))
         (op_j1 c) (op_j2 c `min` (op_j1 c + n)).

Definition fix_first (n : nat) (codes : list opcode) : list opcode :=
  match codes with
  | c :: rest => (if is_equal c then keep_tail n c else c) :: rest
  | [] => []
  end.

Fixpoint fix_last (n : nat) (codes : list opcode) : list opcode :=
  match codes with
  | [] => []
  | [c] => [if is_equal c then keep_head n c else c]
  | c :: rest => c :: fix_last n rest
  end.

(** The loop of [get_grouped_opcodes] and its last test; [group] is the
    group being filled. *)
Fixpoint group_loop (n : nat) (codes group : list opcode)
    : list (list opcode) :=
  match codes with
  | [] =>
      match group with
      | [] => []
      | [c] => if is_equal c then [] else [group]
      | _ => [group]
      end
  | c :: rest =>
      if is_equal c && (n + n <? op_i2 c - op_i1 c)%nat
      then (group ++ [keep_head n c]) :: group_loop n rest [keep_tail n c]
      else group_loop n rest (group ++ [c])
  end.

Definition get_grouped_opcodes (n : nat) (codes : list opcode)
    : list (list opcode) :=
  let codes :=
    match codes with
    | [] => [Opcode op_equal 0 1 0 1]
    | _ => codes
    end in
  group_loop n (fix_last n (fix_first n codes)) [].

Definition format_range_unified (start stop : nat) : string :=
  let beginning := Z.of_nat start + 1 in
  let length := Z.of_nat stop - Z.of_nat start in
  if length =? 1 then pretty beginning
  else
    let beginning := if length =? 0 then beginning - 1 else beginning in
    pretty beginning +:+ "," +:+ pretty length.

(** [l[lo:hi]] *)
Definition slice {A} (l : list A) (lo hi : nat) : list A :=
  take (hi - lo) (drop lo l).

Definition opcode_lines (a b : list string) (c : opcode) : list string :=
  match op_tag c with
  | op_equal => String.append " " <$> slice a (op_i1 c) (op_i2 c)
  | op_replace =>
      (String.append "-" <$> slice a (op_i1 c) (op_i2 c))
      ++ (String.append "+" <$> slice b (op_j1 c) (op_j2 c))
  | op_delete => String.append "-" <$> slice a (op_i1 c) (op_i2 c)
  | op_insert => String.append "+" <$> slice b (op_j1 c) (op_j2 c)
  end.

(** The lines that one group yields: its [@@] line and its body. *)
Definition hunk (a b : list string) (group : list opcode) : list string :=
  match group, last group with
  | first :: _, Some last =>
      ("@@ -" +:+ format_range_unified (op_i1 first) (op_i2 last)
       +:+ " +" +:+ format_range_unified (op_j1 first) (op_j2 last)
       +:+ " @@" +:+ LF)
      :: concat (opcode_lines a b <$> group)
  | _, _ => []
  end.

Definition unified_diff (blocks : list block) (a b : list string)
    (fromfile tofile : string) : list string :=
  match get_grouped_opcodes 3 (get_opcodes blocks) with
  | [] => []
  | groups =>
      ("--- " +:+ fromfile +:+ LF) :: ("+++ " +:+ tofile +:+ LF)
      :: concat (hunk a b <$> groups)
  end.

(** ** The build service *)

(** [subprocess.run(["clang++", ...], capture_output=True, text=True)],
    no timeout.  The build service is described for a machine on which
    clang++ is installed and prints text: the spawn and the decoding of
    its output do not raise here. *)
Definition run_clang (env : Env) (output_path source_path : string)
    : M CompletedProcess :=
  emit (EvSpawn ["clang++"; "-pg"; "-fsanitize=address"; "-o";
                 output_path; source_path] "");;
  f ← get_files;
  let c := clang env (default "" (f !! source_path)) in
  (if cc_returncode c =? 0
   then set_files (<[output_path := cc_binary c]> f)
   else pass);;
  mret (Completed (cc_returncode c) (cc_stdout c) (cc_stderr c)).

Definition _create_program (env : Env) (clk : build_clock) (content : string)
    : M response :=
  let file_id := uuid4 clk in
  let cpps_dir := path_join (base_dir env) "cpps" in
  emit (EvMakedirs cpps_dir);;
  let source_path := path_join cpps_dir (file_id +:+ ".cpp") in
  let output_path := path_join cpps_dir file_id in
  write_file source_path content;;
  compile_result ← run_clang env output_path source_path;
  if negb (c_returncode compile_result =? 0)
  then
    logging ERROR ("Compilation failed for " +:+ file_id +:+ ": "
                   +:+ c_stderr compile_result);;
    os_remove source_path;;
    mret (Failure (c_stderr compile_result))
  else
    let expiration := now_plus_one_day clk in
    d ← get_cpp_files;
    set_cpp_files (<[file_id := Info output_path source_path expiration]> d);;
    save_cpp_files;;
    logging INFO ("Successfully compiled and stored program with file_id: "
                  +:+ file_id);;
    mret (Created file_id).

Definition create_program := _create_program.

(** ** The execution service *)

Definition TIMEOUT : Z := 10 * 1000000.     (* timeout=10, in microseconds *)

Definition is_TimeoutExpired (e : exn) : bool :=
  match e with TimeoutExpired _ _ => true | _ => false end.

(** [subprocess.run([path], input=..., timeout=10)]: the file at [path]
    is executed; a missing file is an [OSError] of the spawn. *)
Definition run_artifact (env : Env) (path input : string) : M CompletedProcess :=
  f ← get_files;
  match f !! path with
  | None => raise (FileNotFoundError path)
  | Some image => subprocess_run [path] input (machine env image input) (Some TIMEOUT)
  end.

(** [subprocess.run(["gprof", path, "gmon.out"])], no timeout; only its
    stdout is read by the module.  The spawn is an [OSError] when gprof
    is not installed. *)
Definition run_gprof (env : Env) (path : string) : M CompletedProcess :=
  f ← get_files;
  if gprof_installed env
  then subprocess_run ["gprof"; path; "gmon.out"] ""
         (Process (Some 0) 0 (gprof env (f !! path) (f !! "gmon.out")) "" None
            (gprof_decodes env (f !! path) (f !! "gmon.out"))) None
  else raise (FileNotFoundError "gprof").

(** [del cpp_files[file_id]] *)
Definition cpp_files_del (file_id : string) : M unit :=
  d ← get_cpp_files;
  match d !! file_id with
  | None => raise (KeyError file_id)
  | Some _ => set_cpp_files (delete file_id d)
  end.

Definition collapse4 (s : string) : string :=
  str_replace "  " " " (str_replace "  " " "
    (str_replace "  " " " (str_replace "  " " " s))).

Definition _run_program (env : Env) (clk : run_clock)
    (file_id custom_input : string) (expected_output : option string)
    : M response :=
  load_cpp_files;;
  d ← get_cpp_files;
  match d !! file_id with
  | None =>
      logging WARNING ("Attempted to run non-existent file_id: " +:+ file_id);;
      mret (Failure "File ID not found.")
  | Some file_info =>
      if str_lt (expiration file_info) (now clk)
      then
        logging INFO ("File ID " +:+ file_id +:+ " has expired. Cleaning up.");;
        cpp_files_del file_id;;
        os_remove (source_path file_info);;
        os_remove (output_path file_info);;
        save_cpp_files;;
        mret (Failure "File ID has expired.")
      else
        let start_time := start_time clk in
        r ← try_except
              (run_result ← run_artifact env (output_path file_info) custom_input;
               let end_time := end_time clk in
               let run_time := end_time - start_time in
               gprof_result ← run_gprof env (output_path file_info);
               ex ← os_path_exists "gmon.out";
               (if (ex : bool) then os_remove "gmon.out" else pass);;
               mret (inl (run_result, run_time, gprof_result)))
              is_TimeoutExpired
              (λ _, mret (inr (Failure "Execution timed out after 10 seconds.")));
        match r with
        | inr early => mret early
        | inl (run_result, run_time, gprof_result) =>
            let diff_result :=
              match expected_output with
              | None => None
              | Some expected_output =>
                  let a := splitlines expected_output in
                  let b := splitlines (c_stdout run_result) in
                  let diff := unified_diff (get_matching_blocks env a b) a b
                                "expected_output" "actual_output" in
                  Some (str_join "" diff)
              end in
            let profiling_report := c_stdout gprof_result in
            let profiling_report := str_take 500 (collapse4 profiling_report) in
            mret (Ran (c_stdout run_result) (c_stderr run_result)
                      diff_result run_time profiling_report)
        end
  end.

Definition run_program := _run_program.

(** ** The composite orchestrator *)

(** [create_response["file_id"]] *)
Definition getitem_file_id (r : response) : M string :=
  match r with
  | Created file_id => mret file_id
  | _ => raise (KeyError "file_id")
  end.

Definition _create_and_run_program (env : Env) (bclk : build_clock)
    (rclk : run_clock) (content custom_input : string)
    (expected_output : option string) : M response :=
  create_response ← _create_program env bclk content;
  if negb (success create_response)
  then mret create_response
  else
    file_id ← getitem_file_id create_response;
    run_response ← _run_program env rclk file_id custom_input expected_output;
    mret (Combined create_response run_response).

Definition create_and_run_program := _create_and_run_program.

(** * Auxiliary definitions for the statements *)

(** The dictionary that [load_cpp_files] installs. *)
Definition stored (j : json_file) : gmap string info :=
  match j with
  | Valid d => d
  | Malformed | Missing => ∅
  end.

(** The files after a process has run over the files [f]. *)
Definition after_process (p : process) (f : gmap string string)
    : gmap string string :=
  match gmon p with
  | Some g => <["gmon.out" := g]> f
  | None => f
  end.

(** The report that gprof prints for the executable of a record over the
    files [f]. *)
Definition report_of (env : Env) (file_info : info) (f : gmap string string)
    : string :=
  gprof env (f !! output_path file_info) (f !! "gmon.out").

(** The [diff] field of a successful run that captured [stdout]. *)
Definition diff_of (env : Env) (expected_output : option string)
    (stdout : string) : option string :=
  match expected_output with
  | None => None
  | Some e =>
      Some (str_join ""
              (unified_diff
                 (get_matching_blocks env (splitlines e) (splitlines stdout))
                 (splitlines e) (splitlines stdout)
                 "expected_output" "actual_output"))
  end.

Fixpoint has_slash (s : string) : bool :=
  match s with
  | EmptyString => false
  | String c r => Ascii.eqb c "/" || has_slash r
  end.

(** The files and the events left by the [try] block of one iteration. *)
Definition reaped_files (i : info) (f : gmap string string)
    : gmap string string :=
  match f !! source_path i with
  | None => f
  | Some _ => delete (output_path i) (delete (source_path i) f)
  end.

Definition reaped_events (file_id : string) (i : info)
    (f : gmap string string) : list event :=
  match f !! source_path i with
  | None =>
      [EvLog ERROR ("Error cleaning up file " +:+ file_id +:+ ": "
                    +:+ str_exn (FileNotFoundError (source_path i)))]
  | Some _ =>
      EvRemove (source_path i) ::
      match delete (source_path i) f !! output_path i with
      | None =>
          [EvLog ERROR ("Error cleaning up file " +:+ file_id +:+ ": "
                        +:+ str_exn (FileNotFoundError (output_path i)))]
      | Some _ =>
          [EvRemove (output_path i);
           EvLog INFO ("Cleaned up expired file: " +:+ file_id)]
      end
  end.

(** The events of the loop: removals and log lines only. *)
Definition is_reap_event (e : event) : Prop :=
  match e with
  | EvRemove _ | EvLog _ _ => True
  | _ => False
  end.

(** The records that a sweep at [now] keeps. *)
Definition kept (now : string) (d : gmap string info) : gmap string info :=
  filter (λ kv, ¬ is_expired now kv.2) d.

Definition served (r : outcome response) : bool :=
  match r with
  | Return (Ran _ _ _ _ _) => true
  | _ => false
  end.

Definition is_spawn (e : event) : Prop :=
  match e with
  | EvSpawn _ _ => True
  | _ => False
  end.

Definition is_remove (e : event) : Prop :=
  match e with
  | EvRemove _ => True
  | _ => False
  end.

Definition is_save (e : event) : Prop :=
  match e with
  | EvSave _ => True
  | _ => False
  end.

Definition is_gprof (e : event) : Prop :=
  match e with
  | EvSpawn [prog; _; _] _ => prog = "gprof"
  | _ => False
  end.

Definition is_load (e : event) : Prop :=
  match e with
  | EvLoad => True
  | _ => False
  end.

(** The subprocess outlives the 10 seconds of [timeout=10]. *)
Definition timed_out (p : process) : Prop :=
  match duration p with
  | None => True
  | Some t => TIMEOUT < t
  end.

(** The subprocess exits within the 10 seconds. *)
Definition in_time (p : process) : Prop :=
  ∃ t, duration p = Some t ∧ t ≤ TIMEOUT.

(** One pass that collapses each pair of two spaces into a single space,
    reading left to right. *)
Fixpoint collapse_pairs (s : string) : string :=
  match s with
  | String " " (String " " r) => String " " (collapse_pairs r)
  | String c r => String c (collapse_pairs r)
  | EmptyString => EmptyString
  end.

(** The in-memory dictionary agrees with [cpp_files.json]. *)
Definition synced (w : World) : Prop := cpp_files w = stored (json w).

(** A run of [n] spaces. *)
Fixpoint spaces (n : nat) : string :=
  match n with
  | O => EmptyString
  | S k => String " " (spaces k)
  end.





(** gprof can be spawned and prints text. *)
Definition gprof_works (env : Env) : Prop :=
  gprof_installed env = true
  ∧ ∀ image data, gprof_decodes env image data = true.

(** ** One relation for the ways a call of [_run_program] ends *)

Section run_branch.
Context (env : Env) (clk : run_clock) (file_id custom_input : string)
        (expected_output : option string) (w : World).

Let d := stored (json w).
Let loaded (evs : list event) (f : gmap string string) : World :=
  mkWorld d (json w) f (trace w ++ EvLoad :: evs).
Let popped (j : json_file) (evs : list event) (f : gmap string string) : World :=
  mkWorld (delete file_id d) j f
    (trace w ++ EvLoad
       :: EvLog INFO ("File ID " +:+ file_id +:+ " has expired. Cleaning up.")
       :: evs).

Inductive run_branch : outcome response * World → Prop :=
| br_not_found :
    d !! file_id = None →
    run_branch
      (Return (Failure "File ID not found."),
       loaded [EvLog WARNING
                 ("Attempted to run non-existent file_id: " +:+ file_id)]
              (files w))
| br_expired_source_missing i :
    d !! file_id = Some i → is_expired (now clk) i = true →
    files w !! source_path i = None →
    run_branch (Raise (FileNotFoundError (source_path i)),
                popped (json w) [] (files w))
| br_expired_output_missing i :
    d !! file_id = Some i → is_expired (now clk) i = true →
    is_Some (files w !! source_path i) →
    delete (source_path i) (files w) !! output_path i = None →
    run_branch (Raise (FileNotFoundError (output_path i)),
                popped (json w) [EvRemove (source_path i)]
                       (delete (source_path i) (files w)))
| br_expired_removed i :
    d !! file_id = Some i → is_expired (now clk) i = true →
    is_Some (files w !! source_path i) →
    is_Some (delete (source_path i) (files w) !! output_path i) →
    run_branch (Return (Failure "File ID has expired."),
                popped (Valid (delete file_id d))
                       [EvRemove (source_path i); EvRemove (output_path i);
                        EvSave (delete file_id d)]
                       (delete (output_path i)
                          (delete (source_path i) (files w))))
| br_spawn_error i :
    d !! file_id = Some i → is_expired (now clk) i = false →
    files w !! output_path i = None →
    run_branch (Raise (FileNotFoundError (output_path i)),
                loaded [] (files w))
| br_timed_out i image :
    d !! file_id = Some i → is_expired (now clk) i = false →
    files w !! output_path i = Some image →
    let p := machine env image custom_input in
    exceeds (duration p) (Some TIMEOUT) = true →
    run_branch (Return (Failure "Execution timed out after 10 seconds."),
                loaded [EvSpawn [output_path i] custom_input;
                        EvKill [output_path i]]
                       (after_process p (files w)))
| br_undecodable i image dur :
    d !! file_id = Some i → is_expired (now clk) i = false →
    files w !! output_path i = Some image →
    let p := machine env image custom_input in
    duration p = Some dur → dur ≤ TIMEOUT →
    decodes p = false →
    run_branch (Raise UnicodeDecodeError,
                loaded [EvSpawn [output_path i] custom_input]
                       (after_process p (files w)))
| br_gprof_absent i image dur :
    d !! file_id = Some i → is_expired (now clk) i = false →
    files w !! output_path i = Some image →
    let p := machine env image custom_input in
    duration p = Some dur → dur ≤ TIMEOUT →
    decodes p = true →
    gprof_installed env = false →
    run_branch (Raise (FileNotFoundError "gprof"),
                loaded [EvSpawn [output_path i] custom_input]
                       (after_process p (files w)))
| br_gprof_undecodable i image dur :
    d !! file_id = Some i → is_expired (now clk) i = false →
    files w !! output_path i = Some image →
    let p := machine env image custom_input in
    duration p = Some dur → dur ≤ TIMEOUT →
    decodes p = true →
    let f := after_process p (files w) in
    gprof_installed env = true →
    gprof_decodes env (f !! output_path i) (f !! "gmon.out") = false →
    run_branch (Raise UnicodeDecodeError,
                loaded [EvSpawn [output_path i] custom_input;
                        EvSpawn ["gprof"; output_path i; "gmon.out"] ""]
                       f)
| br_completed i image dur :
    d !! file_id = Some i → is_expired (now clk) i = false →
    files w !! output_path i = Some image →
    let p := machine env image custom_input in
    duration p = Some dur → dur ≤ TIMEOUT →
    decodes p = true →
    let f := after_process p (files w) in
    gprof_installed env = true →
    gprof_decodes env (f !! output_path i) (f !! "gmon.out") = true →
    run_branch
      (Return (Ran (p_stdout p) (p_stderr p)
                   (diff_of env expected_output (p_stdout p))
                   (end_time clk - start_time clk)
                   (str_take 500 (collapse4 (report_of env i f)))),
       loaded (EvSpawn [output_path i] custom_input
                 :: EvSpawn ["gprof"; output_path i; "gmon.out"] ""
                 :: match f !! "gmon.out" with
                    | Some _ => [EvRemove "gmon.out"]
                    | None => []
                    end)
              (delete "gmon.out" f)).
End run_branch.

(** ** Sample collaborators and worlds *)

(** A matcher for concrete evaluations: the one block it reports is the
    common prefix of the two sequences. *)
Fixpoint common_prefix (a b : list string) : nat :=
  match a, b with
  | x :: a', y :: b' => if String.eqb x y then S (common_prefix a' b') else 0
  | _, _ => 0
  end.

Definition prefix_blocks (a b : list string) : list block :=
  match common_prefix a b with
  | O => [(length a, length b, 0%nat)]
  | S k => [(0%nat, 0%nat, S k); (length a, length b, 0%nat)]
  end.

Definition sample_env : Env :=
  mkEnv "/srv"
    (λ src,
       if String.eqb src "ok" then Compilation 0 "" "" "BIN"
       else Compilation 1 "" "main.cpp:1:1: error: expected ';'" "")
    (λ image input,
       if String.eqb image "LOOP" then Process None 0 "partial" "" None true
       else if String.eqb image "CRASH"
       then Process (Some 1200) (-11) "" "AddressSanitizer: SEGV" None true
       else if String.eqb image "BYTES"
       then Process (Some 800) 0 "" "" (Some "gmon-data") false
       else Process (Some 5000) 0 ("out:" +:+ input) "" (Some "gmon-data") true)
    true
    (λ _ _, "Flat   profile:      main")
    (λ _ _, true)
    prefix_blocks.

(** The same machine without gprof. *)
Definition bare_env : Env :=
  mkEnv (base_dir sample_env) (clang sample_env) (machine sample_env) false
    (gprof sample_env) (gprof_decodes sample_env)
    (get_matching_blocks sample_env).

Definition rec_a : info := Info "/srv/cpps/a" "/srv/cpps/a.cpp" "2026-01-01T00:00:00".
Definition rec_b : info := Info "/srv/cpps/b" "/srv/cpps/b.cpp" "2026-01-01T06:00:00".
Definition rec_loop : info := Info "/srv/cpps/l" "/srv/cpps/l.cpp" "2026-01-01T00:00:00".
Definition rec_crash : info := Info "/srv/cpps/c" "/srv/cpps/c.cpp" "2026-01-01T00:00:00".

Definition sample_store : gmap string info :=
  {[ "a" := rec_a; "b" := rec_b; "l" := rec_loop; "c" := rec_crash ]}.

Definition sample_files : gmap string string :=
  {[ "/srv/cpps/a" := "BIN"; "/srv/cpps/a.cpp" := "ok";
     "/srv/cpps/b" := "BIN"; "/srv/cpps/b.cpp" := "ok";
     "/srv/cpps/l" := "LOOP"; "/srv/cpps/l.cpp" := "ok";
     "/srv/cpps/c" := "CRASH"; "/srv/cpps/c.cpp" := "ok" ]}.

Definition sample_world : World :=
  mkWorld sample_store (Valid sample_store) sample_files [].

(** The same store after the source file of "a" was lost. *)
Definition damaged_world : World :=
  mkWorld sample_store (Valid sample_store)
    (delete "/srv/cpps/a.cpp" sample_files) [].

Definition empty_world : World := mkWorld ∅ Missing ∅ [].

(** A program whose output is not text. *)
Definition rec_bytes : info :=
  Info "/srv/cpps/x" "/srv/cpps/x.cpp" "2026-01-01T00:00:00".

Definition bytes_world : World :=
  mkWorld ∅ (Valid {[ "x" := rec_bytes ]})
    {[ "/srv/cpps/x" := "BYTES"; "/srv/cpps/x.cpp" := "ok" ]} [].

Definition before_expiry : run_clock := RunClock "2025-12-31T23:59:59" 0 5000.
Definition at_expiry : run_clock := RunClock "2026-01-01T00:00:00" 0 5000.
Definition after_expiry : run_clock := RunClock "2026-01-02T00:00:00" 0 5000.

(** * Properties *)

Ltac unfold_monad :=
  cbv beta iota delta
    [mbind mret M_bind M_ret raise pass try_except emit logging
     get_cpp_files set_cpp_files get_files set_files get_json set_json].

Ltac step :=
  unfold_monad;
  cbn [cpp_files json files trace fst snd c_returncode c_stdout c_stderr
       is_OSError is_TimeoutExpired].

(** Case analysis on a derivation of [run_branch]. *)
Ltac invert_branch Hb :=
  inversion Hb as
    [Hnone
    |i Hi He Hs
    |i Hi He Hs Ho
    |i Hi He Hs Ho
    |i Hi He Ho
    |i image Hi He Himg p Hex
    |i image dur Hi He Himg p Hd Hle Hdec
    |i image dur Hi He Himg p Hd Hle Hdec Hinst
    |i image dur Hi He Himg p Hd Hle Hdec f Hinst Hgdec
    |i image dur Hi He Himg p Hd Hle Hdec f Hinst Hgdec].

(** ** Running the primitives *)

Lemma bind_run {A B} (m : M A) (k : A → M B) w :
  (m ≫= k) w
  = match m w with
    | (Return a, w') => k a w'
    | (Raise e, w') => (Raise e, w')
    end.
Proof. reflexivity. Qed.

Lemma ret_run {A} (a : A) w : (mret a : M A) w = (Return a, w).
Proof. reflexivity. Qed.

Lemma cpp_files_pop_run file_id i w :
  cpp_files w !! file_id = Some i →
  cpp_files_pop file_id w
  = (Return i, mkWorld (delete file_id (cpp_files w)) (json w) (files w) (trace w)).
Proof. intros H. unfold cpp_files_pop. step. by rewrite H. Qed.

Lemma load_cpp_files_run w :
  load_cpp_files w
  = (Return (), mkWorld (stored (json w)) (json w) (files w) (trace w ++ [EvLoad])).
Proof. unfold load_cpp_files. step. by destruct (json w). Qed.

Lemma save_cpp_files_run w :
  save_cpp_files w
  = (Return (), mkWorld (cpp_files w) (Valid (cpp_files w)) (files w)
                        (trace w ++ [EvSave (cpp_files w)])).
Proof. reflexivity. Qed.

Lemma os_remove_present path c w :
  files w !! path = Some c →
  os_remove path w
  = (Return (), mkWorld (cpp_files w) (json w) (delete path (files w))
                        (trace w ++ [EvRemove path])).
Proof. intros H. unfold os_remove. step. by rewrite H. Qed.

Lemma os_remove_missing path w :
  files w !! path = None →
  os_remove path w = (Raise (FileNotFoundError path), w).
Proof. intros H. unfold os_remove. step. by rewrite H. Qed.

Lemma subprocess_run_completed argv input p w d :
  duration p = Some d → d ≤ TIMEOUT → decodes p = true →
  subprocess_run argv input p (Some TIMEOUT) w
  = (Return (Completed (returncode p) (p_stdout p) (p_stderr p)),
     mkWorld (cpp_files w) (json w) (after_process p (files w))
             (trace w ++ [EvSpawn argv input])).
Proof.
  intros Hd Hle Hdec. unfold subprocess_run, exceeds. step. rewrite Hd.
  rewrite bool_decide_eq_false_2 by lia. rewrite Hdec. reflexivity.
Qed.

Lemma subprocess_run_undecodable argv input p w d :
  duration p = Some d → d ≤ TIMEOUT → decodes p = false →
  subprocess_run argv input p (Some TIMEOUT) w
  = (Raise UnicodeDecodeError,
     mkWorld (cpp_files w) (json w) (after_process p (files w))
             (trace w ++ [EvSpawn argv input])).
Proof.
  intros Hd Hle Hdec. unfold subprocess_run, exceeds. step. rewrite Hd.
  rewrite bool_decide_eq_false_2 by lia. rewrite Hdec. reflexivity.
Qed.

Lemma subprocess_run_timeout argv input p w :
  exceeds (duration p) (Some TIMEOUT) = true →
  subprocess_run argv input p (Some TIMEOUT) w
  = (Raise (TimeoutExpired argv (p_stdout p)),
     mkWorld (cpp_files w) (json w) (after_process p (files w))
             ((trace w ++ [EvSpawn argv input]) ++ [EvKill argv])).
Proof.
  intros He. unfold subprocess_run. step. rewrite He. reflexivity.
Qed.

Lemma run_gprof_run env path w :
  gprof_installed env = true →
  gprof_decodes env (files w !! path) (files w !! "gmon.out") = true →
  run_gprof env path w
  = (Return (Completed 0 (gprof env (files w !! path) (files w !! "gmon.out")) ""),
     mkWorld (cpp_files w) (json w) (files w)
             (trace w ++ [EvSpawn ["gprof"; path; "gmon.out"] ""])).
Proof.
  intros Hinst Hdec. unfold run_gprof, subprocess_run. step.
  rewrite Hinst. step. cbn [exceeds duration gmon decodes].
  rewrite Hdec. reflexivity.
Qed.

Lemma run_gprof_absent env path w :
  gprof_installed env = false →
  run_gprof env path w = (Raise (FileNotFoundError "gprof"), w).
Proof. intros Hinst. unfold run_gprof. step. by rewrite Hinst. Qed.

Lemma run_gprof_undecodable env path w :
  gprof_installed env = true →
  gprof_decodes env (files w !! path) (files w !! "gmon.out") = false →
  run_gprof env path w
  = (Raise UnicodeDecodeError,
     mkWorld (cpp_files w) (json w) (files w)
             (trace w ++ [EvSpawn ["gprof"; path; "gmon.out"] ""])).
Proof.
  intros Hinst Hdec. unfold run_gprof, subprocess_run. step.
  rewrite Hinst. step. cbn [exceeds duration gmon decodes].
  rewrite Hdec. reflexivity.
Qed.

(** ** The branches of [_run_program] *)

Section run_program_branches.
Context (env : Env) (clk : run_clock) (file_id custom_input : string)
        (expected_output : option string) (w : World).

Let d := stored (json w).

Lemma run_program_not_found :
  d !! file_id = None →
  run_program env clk file_id custom_input expected_output w
  = (Return (Failure "File ID not found."),
     mkWorld d (json w) (files w)
       (trace w ++ [EvLoad;
                    EvLog WARNING
                      ("Attempted to run non-existent file_id: " +:+ file_id)])).
Proof.
  intros H. unfold run_program, _run_program.
  unfold mbind at 1, M_bind at 1. rewrite load_cpp_files_run.
  step. fold d. rewrite H. step. by rewrite <- app_assoc.
Qed.

Context (file_info : info) (Hrec : d !! file_id = Some file_info).

Let expiry_log :=
  EvLog INFO ("File ID " +:+ file_id +:+ " has expired. Cleaning up.").

Lemma run_program_expired_source_missing :
  is_expired (now clk) file_info = true →
  files w !! source_path file_info = None →
  run_program env clk file_id custom_input expected_output w
  = (Raise (FileNotFoundError (source_path file_info)),
     mkWorld (delete file_id d) (json w) (files w)
       (trace w ++ [EvLoad; expiry_log])).
Proof.
  intros He Hs. unfold run_program, _run_program.
  unfold mbind at 1, M_bind at 1. rewrite load_cpp_files_run.
  step. fold d. rewrite Hrec. unfold is_expired in He. rewrite He.
  unfold cpp_files_del, os_remove. step. fold d. rewrite Hrec. step.
  rewrite Hs. by rewrite <- app_assoc.
Qed.

Lemma run_program_expired_output_missing c :
  is_expired (now clk) file_info = true →
  files w !! source_path file_info = Some c →
  delete (source_path file_info) (files w) !! output_path file_info = None →
  run_program env clk file_id custom_input expected_output w
  = (Raise (FileNotFoundError (output_path file_info)),
     mkWorld (delete file_id d) (json w)
       (delete (source_path file_info) (files w))
       (trace w ++ [EvLoad; expiry_log; EvRemove (source_path file_info)])).
Proof.
  intros He Hs Ho. unfold run_program, _run_program.
  unfold mbind at 1, M_bind at 1. rewrite load_cpp_files_run.
  step. fold d. rewrite Hrec. unfold is_expired in He. rewrite He.
  unfold cpp_files_del, os_remove. step. fold d. rewrite Hrec. step.
  rewrite Hs. step. rewrite Ho. by rewrite <- !app_assoc.
Qed.

Lemma run_program_expired_removed c c' :
  is_expired (now clk) file_info = true →
  files w !! source_path file_info = Some c →
  delete (source_path file_info) (files w) !! output_path file_info = Some c' →
  run_program env clk file_id custom_input expected_output w
  = (Return (Failure "File ID has expired."),
     mkWorld (delete file_id d) (Valid (delete file_id d))
       (delete (output_path file_info)
          (delete (source_path file_info) (files w)))
       (trace w ++ [EvLoad; expiry_log; EvRemove (source_path file_info);
                    EvRemove (output_path file_info);
                    EvSave (delete file_id d)])).
Proof.
  intros He Hs Ho. unfold run_program, _run_program.
  unfold mbind at 1, M_bind at 1. rewrite load_cpp_files_run.
  step. fold d. rewrite Hrec. unfold is_expired in He. rewrite He.
  unfold cpp_files_del, os_remove, save_cpp_files. step. fold d.
  rewrite Hrec. step. rewrite Hs. step. rewrite Ho. step.
  by rewrite <- !app_assoc.
Qed.

Lemma run_program_spawn_error :
  is_expired (now clk) file_info = false →
  files w !! output_path file_info = None →
  run_program env clk file_id custom_input expected_output w
  = (Raise (FileNotFoundError (output_path file_info)),
     mkWorld d (json w) (files w) (trace w ++ [EvLoad])).
Proof.
  intros He Ho. unfold run_program, _run_program.
  unfold mbind at 1, M_bind at 1. rewrite load_cpp_files_run.
  step. fold d. rewrite Hrec. unfold is_expired in He. rewrite He.
  unfold run_artifact. step. by rewrite Ho.
Qed.

Context (image : string) (Himg : files w !! output_path file_info = Some image).

Let p := machine env image custom_input.
Let argv := [output_path file_info].

Lemma run_program_timed_out :
  is_expired (now clk) file_info = false →
  exceeds (duration p) (Some TIMEOUT) = true →
  run_program env clk file_id custom_input expected_output w
  = (Return (Failure "Execution timed out after 10 seconds."),
     mkWorld d (json w) (after_process p (files w))
       (trace w ++ [EvLoad; EvSpawn argv custom_input; EvKill argv])).
Proof.
  intros He Ht. unfold run_program, _run_program.
  unfold mbind at 1, M_bind at 1. rewrite load_cpp_files_run.
  step. fold d. rewrite Hrec. unfold is_expired in He. rewrite He.
  unfold run_artifact. step. rewrite Himg.
  rewrite subprocess_run_timeout by done. step.
  by rewrite <- !app_assoc.
Qed.

Let f := after_process p (files w).

Lemma run_program_undecodable dur :
  is_expired (now clk) file_info = false →
  duration p = Some dur → dur ≤ TIMEOUT →
  decodes p = false →
  run_program env clk file_id custom_input expected_output w
  = (Raise UnicodeDecodeError,
     mkWorld d (json w) f (trace w ++ [EvLoad; EvSpawn argv custom_input])).
Proof.
  intros He Hd Hle Hdec. unfold run_program, _run_program.
  unfold mbind at 1, M_bind at 1. rewrite load_cpp_files_run.
  step. fold d. rewrite Hrec. unfold is_expired in He. rewrite He.
  unfold run_artifact. step. rewrite Himg.
  rewrite (subprocess_run_undecodable _ _ _ _ dur) by done. step.
  by rewrite <- !app_assoc.
Qed.

Lemma run_program_gprof_absent dur :
  is_expired (now clk) file_info = false →
  duration p = Some dur → dur ≤ TIMEOUT →
  decodes p = true →
  gprof_installed env = false →
  run_program env clk file_id custom_input expected_output w
  = (Raise (FileNotFoundError "gprof"),
     mkWorld d (json w) f (trace w ++ [EvLoad; EvSpawn argv custom_input])).
Proof.
  intros He Hd Hle Hdec Hinst. unfold run_program, _run_program.
  unfold mbind at 1, M_bind at 1. rewrite load_cpp_files_run.
  step. fold d. rewrite Hrec. unfold is_expired in He. rewrite He.
  unfold run_artifact. step. rewrite Himg.
  rewrite (subprocess_run_completed _ _ _ _ dur) by done. step.
  rewrite run_gprof_absent by done. step.
  by rewrite <- !app_assoc.
Qed.

Lemma run_program_gprof_undecodable dur :
  is_expired (now clk) file_info = false →
  duration p = Some dur → dur ≤ TIMEOUT →
  decodes p = true →
  gprof_installed env = true →
  gprof_decodes env (f !! output_path file_info) (f !! "gmon.out") = false →
  run_program env clk file_id custom_input expected_output w
  = (Raise UnicodeDecodeError,
     mkWorld d (json w) f
       (trace w ++ [EvLoad; EvSpawn argv custom_input;
                    EvSpawn ["gprof"; output_path file_info; "gmon.out"] ""])).
Proof.
  intros He Hd Hle Hdec Hinst Hgdec. unfold run_program, _run_program.
  unfold mbind at 1, M_bind at 1. rewrite load_cpp_files_run.
  step. fold d. rewrite Hrec. unfold is_expired in He. rewrite He.
  unfold run_artifact. step. rewrite Himg.
  rewrite (subprocess_run_completed _ _ _ _ dur) by done. step.
  rewrite run_gprof_undecodable by done. step.
  by rewrite <- !app_assoc.
Qed.

Lemma run_program_completed dur :
  is_expired (now clk) file_info = false →
  duration p = Some dur → dur ≤ TIMEOUT →
  decodes p = true →
  gprof_installed env = true →
  gprof_decodes env (f !! output_path file_info) (f !! "gmon.out") = true →
  run_program env clk file_id custom_input expected_output w
  = (Return (Ran (p_stdout p) (p_stderr p) (diff_of env expected_output (p_stdout p))
                 (end_time clk - start_time clk)
                 (str_take 500 (collapse4 (report_of env file_info f)))),
     mkWorld d (json w) (delete "gmon.out" f)
       (trace w ++ [EvLoad; EvSpawn argv custom_input;
                    EvSpawn ["gprof"; output_path file_info; "gmon.out"] ""]
                ++ match f !! "gmon.out" with
                   | Some _ => [EvRemove "gmon.out"]
                   | None => []
                   end)).
Proof.
  intros He Hd Hle Hdec Hinst Hgdec. unfold run_program, _run_program.
  unfold mbind at 1, M_bind at 1. rewrite load_cpp_files_run.
  step. fold d. rewrite Hrec. unfold is_expired in He. rewrite He.
  unfold run_artifact. step. rewrite Himg.
  rewrite (subprocess_run_completed _ _ _ _ dur) by done. step.
  rewrite run_gprof_run by done. unfold os_path_exists, os_remove. step.
  fold p f. unfold diff_of, report_of.
  destruct (f !! "gmon.out") as [g|] eqn:Hg.
  - rewrite bool_decide_eq_true_2 by eauto. step. rewrite Hg. step.
    by rewrite <- !app_assoc.
  - rewrite bool_decide_eq_false_2 by (intros [? ?]; done). step.
    rewrite delete_id by done. by rewrite <- !app_assoc.
Qed.
End run_program_branches.

(** ** The branches of [_create_program] *)

Lemma str_app_nil_r (s : string) : s +:+ "" = s.
Proof.
  induction s as [|c s IH]; [reflexivity|].
  change (String c (s +:+ "") = String c s). by rewrite IH.
Qed.

Lemma path_join_cpp_ne dir file_id :
  path_join dir (file_id +:+ ".cpp") ≠ path_join dir file_id.
Proof.
  unfold path_join. intros H.
  apply (inj (String.app dir)), (inj (String.app "/")) in H.
  rewrite <- (str_app_nil_r file_id) in H at 2.
  by apply (inj (String.app file_id)) in H.
Qed.

Lemma has_slash_path_join dir name : has_slash (path_join dir name) = true.
Proof.
  unfold path_join. induction dir as [|c dir IH]; [reflexivity|].
  change (Ascii.eqb c "/" || has_slash (dir +:+ "/" +:+ name) = true).
  rewrite IH. apply orb_true_r.
Qed.

Lemma path_join_ne_gmon dir name : path_join dir name ≠ "gmon.out".
Proof.
  intros H. pose proof (has_slash_path_join dir name) as Hs.
  rewrite H in Hs. discriminate.
Qed.

Section create_program_branches.
Context (env : Env) (clk : build_clock) (content : string) (w : World).

Let cpps_dir := path_join (base_dir env) "cpps".
Let src := path_join cpps_dir (uuid4 clk +:+ ".cpp").
Let out := path_join cpps_dir (uuid4 clk).
Let c := clang env content.
Let argv := ["clang++"; "-pg"; "-fsanitize=address"; "-o"; out; src].

Lemma create_program_failed :
  cc_returncode c ≠ 0 →
  create_program env clk content w
  = (Return (Failure (cc_stderr c)),
     mkWorld (cpp_files w) (json w) (delete src (files w))
       (trace w ++ [EvMakedirs cpps_dir; EvWrite src; EvSpawn argv "";
                    EvLog ERROR ("Compilation failed for " +:+ uuid4 clk
                                 +:+ ": " +:+ cc_stderr c);
                    EvRemove src])).
Proof.
  intros Hrc. unfold create_program, _create_program, write_file, run_clang.
  fold cpps_dir. fold src out. step.
  rewrite lookup_insert_eq. cbn [default from_option id]. fold c.
  apply Z.eqb_neq in Hrc. rewrite Hrc. step. rewrite Hrc. cbn [negb].
  unfold os_remove. step. rewrite lookup_insert_eq. step.
  rewrite delete_insert_eq. by rewrite <- !app_assoc.
Qed.

Lemma create_program_stored :
  cc_returncode c = 0 →
  let d := <[uuid4 clk := Info out src (now_plus_one_day clk)]> (cpp_files w) in
  create_program env clk content w
  = (Return (Created (uuid4 clk)),
     mkWorld d (Valid d)
       (<[out := cc_binary c]> (<[src := content]> (files w)))
       (trace w ++ [EvMakedirs cpps_dir; EvWrite src; EvSpawn argv "";
                    EvSave d;
                    EvLog INFO
                      ("Successfully compiled and stored program with file_id: "
                       +:+ uuid4 clk)])).
Proof.
  intros Hrc d. unfold create_program, _create_program, write_file, run_clang.
  fold cpps_dir. fold src out. step.
  rewrite lookup_insert_eq. cbn [default from_option id]. fold c.
  rewrite Hrc. cbn [Z.eqb negb]. step. rewrite ?Hrc. cbn [Z.eqb negb].
  unfold save_cpp_files. step. fold d. by rewrite <- !app_assoc.
Qed.
End create_program_branches.

(** ** The reaper's loop *)

Lemma reap_try_run file_id i w :
  try_except
    (os_remove (source_path i);;
     os_remove (output_path i);;
     logging INFO ("Cleaned up expired file: " +:+ file_id))
    is_OSError
    (λ e, logging ERROR
            ("Error cleaning up file " +:+ file_id +:+ ": " +:+ str_exn e)) w
  = (Return (),
     mkWorld (cpp_files w) (json w) (reaped_files i (files w))
             (trace w ++ reaped_events file_id i (files w))).
Proof.
  unfold os_remove, reaped_files, reaped_events. step.
  destruct (files w !! source_path i) as [c|] eqn:Hs; step. 2:{ done. }
  destruct (delete (source_path i) (files w) !! output_path i) as [c'|] eqn:Ho;
    step.
  - by rewrite <- !app_assoc.
  - rewrite (delete_id _ _ Ho). by rewrite <- !app_assoc.
Qed.

Lemma reaped_files_subseteq i f p c :
  reaped_files i f !! p = Some c → f !! p = Some c.
Proof.
  unfold reaped_files. destruct (f !! source_path i); [|done].
  intros H. by do 2 apply lookup_delete_Some in H as [_ H].
Qed.

Lemma reaped_files_source i f : reaped_files i f !! source_path i = None.
Proof.
  unfold reaped_files. destruct (f !! source_path i) eqn:Hs; [|done].
  destruct (decide (output_path i = source_path i)) as [->|Hne].
  - apply lookup_delete_eq.
  - rewrite lookup_delete_ne by done. apply lookup_delete_eq.
Qed.

Lemma reaped_files_output i f :
  is_Some (f !! source_path i) → reaped_files i f !! output_path i = None.
Proof.
  unfold reaped_files. intros [c ->]. apply lookup_delete_eq.
Qed.

Lemma reaped_files_frame i f p :
  p ≠ source_path i → p ≠ output_path i → reaped_files i f !! p = f !! p.
Proof.
  unfold reaped_files. intros Hs Ho. destruct (f !! source_path i); [|done].
  by rewrite !lookup_delete_ne.
Qed.

Lemma reaped_events_kind file_id i f :
  Forall is_reap_event (reaped_events file_id i f).
Proof.
  unfold reaped_events. destruct (f !! source_path i); [|by repeat constructor].
  destruct (delete _ f !! output_path i); by repeat constructor.
Qed.

Lemma cleanup_loop_run ids : ∀ w,
  NoDup ids →
  (∀ id, id ∈ ids → is_Some (cpp_files w !! id)) →
  ∃ w' evs,
    cleanup_loop ids w = (Return (), w')
    ∧ (∀ k, cpp_files w' !! k
            = if decide (k ∈ ids) then None else cpp_files w !! k)
    ∧ json w' = json w
    ∧ (∀ p c, files w' !! p = Some c → files w !! p = Some c)
    ∧ (∀ id i, id ∈ ids → cpp_files w !! id = Some i →
         files w' !! source_path i = None)
    ∧ (∀ id i, id ∈ ids → cpp_files w !! id = Some i →
         is_Some (files w !! source_path i) →
         (∀ j ij, j ∈ ids → j ≠ id → cpp_files w !! j = Some ij →
            source_path ij ≠ source_path i ∧ output_path ij ≠ source_path i) →
         files w' !! output_path i = None)
    ∧ trace w' = trace w ++ evs
    ∧ Forall is_reap_event evs.
Proof.
  induction ids as [|id0 ids IH]; intros w Hnd Hin.
  - exists w, []. cbn [cleanup_loop]. split; [done|].
    split; [intros k; by rewrite decide_False by apply not_elem_of_nil|].
    split; [done|]. split; [done|].
    split; [intros ?? []%not_elem_of_nil|].
    split; [intros ?? []%not_elem_of_nil|].
    split; [by rewrite app_nil_r|done].
  - apply NoDup_cons in Hnd as [Hnotin Hnd].
    destruct (Hin id0) as [i0 Hi0]; [by left|].
    cbn [cleanup_loop].
    rewrite bind_run, (cpp_files_pop_run _ _ _ Hi0). cbv beta iota.
    rewrite bind_run, reap_try_run. cbv beta iota.
    cbn [cpp_files json files trace].
    set (w1 := mkWorld _ _ _ _).
    destruct (IH w1 Hnd) as (w' & evs & Hrun & Hd & Hj & Hsub & Hsrc & Hout & Htr & Hev).
    { intros id Hid. subst w1. cbn. rewrite lookup_delete_ne.
      - apply Hin. by right.
      - intros ->. done. }
    exists w', (reaped_events id0 i0 (files w) ++ evs). rewrite Hrun.
    subst w1. cbn [cpp_files json files trace] in *.
    split; [done|]. split; [|split; [done|]].
    { intros k. rewrite Hd. destruct (decide (k = id0)) as [->|Hne].
      - rewrite (decide_True (P := id0 ∈ id0 :: ids)) by by left.
        rewrite lookup_delete_eq. by destruct (decide _).
      - rewrite lookup_delete_ne by done.
        destruct (decide (k ∈ ids)).
        + rewrite decide_True; [done|by right].
        + rewrite decide_False; [done|].
          intros [?|?]%elem_of_cons; done. }
    split; [intros p c Hp; eapply reaped_files_subseteq, Hsub, Hp|].
    split.
    { intros id i [->|Hid]%elem_of_cons Hi.
      - rewrite Hi0 in Hi. injection Hi as <-.
        destruct (files w' !! source_path i0) as [c|] eqn:Hc; [|done].
        apply Hsub in Hc. by rewrite reaped_files_source in Hc.
      - eapply Hsrc; [done|]. rewrite lookup_delete_ne; [done|].
        intros ->. done. }
    split.
    { intros id i [->|Hid]%elem_of_cons Hi Hs Halias.
      - rewrite Hi0 in Hi. injection Hi as <-.
        destruct (files w' !! output_path i0) as [c|] eqn:Hc; [|done].
        apply Hsub in Hc. by rewrite reaped_files_output in Hc.
      - assert (id ≠ id0) as Hne by (intros ->; done).
        destruct (Halias id0 i0) as [Ha1 Ha2]; [by left|done|done|].
        eapply (Hout id); [done| |..].
        + by rewrite lookup_delete_ne.
        + by rewrite reaped_files_frame.
        + intros j ij Hj' Hjne Hij.
          apply (Halias j); [by right|done|].
          rewrite lookup_delete_ne in Hij; [done|]. intros ->. done. }
    split; [by rewrite Htr, <- app_assoc|].
    apply Forall_app. split; [apply reaped_events_kind|done].
Qed.

(** ** Every call of [_run_program] ends in one of these ways *)

Section run_program_branch.
Context (env : Env) (clk : run_clock) (file_id custom_input : string)
        (expected_output : option string) (w : World).

Let d := stored (json w).

Lemma run_program_branch :
  run_branch env clk file_id custom_input expected_output w
    (run_program env clk file_id custom_input expected_output w).
Proof.
  destruct (d !! file_id) as [i|] eqn:Hrec.
  2:{ rewrite (run_program_not_found _ _ _ _ _ _ Hrec). by constructor. }
  destruct (is_expired (now clk) i) eqn:He.
  - destruct (files w !! source_path i) as [c|] eqn:Hs.
    2:{ rewrite (run_program_expired_source_missing _ _ _ _ _ _ _ Hrec He Hs).
        by constructor. }
    destruct (delete (source_path i) (files w) !! output_path i) as [c'|] eqn:Ho.
    + rewrite (run_program_expired_removed _ _ _ _ _ _ _ Hrec _ _ He Hs Ho).
      apply br_expired_removed; eauto.
    + rewrite (run_program_expired_output_missing _ _ _ _ _ _ _ Hrec _ He Hs Ho).
      apply br_expired_output_missing; eauto.
  - destruct (files w !! output_path i) as [image|] eqn:Himg.
    2:{ rewrite (run_program_spawn_error _ _ _ _ _ _ _ Hrec He Himg).
        by constructor. }
    destruct (exceeds (duration (machine env image custom_input)) (Some TIMEOUT))
      eqn:Hex.
    + rewrite (run_program_timed_out _ _ _ _ _ _ _ Hrec _ Himg He Hex).
      by apply br_timed_out.
    + unfold exceeds in Hex.
      destruct (duration (machine env image custom_input)) as [dur|] eqn:Hd;
        [|done].
      apply bool_decide_eq_false in Hex.
      assert (dur ≤ TIMEOUT) as Hle by lia.
      destruct (decodes (machine env image custom_input)) eqn:Hdec.
      2:{ rewrite (run_program_undecodable _ _ _ _ _ _ _ Hrec _ Himg _
                     He Hd Hle Hdec).
          by eapply br_undecodable. }
      destruct (gprof_installed env) eqn:Hinst.
      2:{ rewrite (run_program_gprof_absent _ _ _ _ _ _ _ Hrec _ Himg _
                     He Hd Hle Hdec Hinst).
          by eapply br_gprof_absent. }
      destruct (gprof_decodes env
                  (after_process (machine env image custom_input) (files w)
                     !! output_path i)
                  (after_process (machine env image custom_input) (files w)
                     !! "gmon.out")) eqn:Hgdec.
      * rewrite (run_program_completed _ _ _ _ _ _ _ Hrec _ Himg _
                   He Hd Hle Hdec Hinst Hgdec).
        by eapply br_completed.
      * rewrite (run_program_gprof_undecodable _ _ _ _ _ _ _ Hrec _ Himg _
                   He Hd Hle Hdec Hinst Hgdec).
        by eapply br_gprof_undecodable.
Qed.
End run_program_branch.

(** ** The ids that the sweep selects *)

Lemma elem_of_to_delete now (d : gmap string info) id :
  id ∈ to_delete now d ↔ ∃ i, d !! id = Some i ∧ is_expired now i = true.
Proof.
  unfold to_delete. rewrite list_elem_of_fmap. split.
  - intros ([k i] & -> & [Hp Hk]%list_elem_of_filter).
    apply elem_of_map_to_list in Hk. apply Is_true_true in Hp. eauto.
  - intros (i & Hi & He). exists (id, i). split; [done|].
    apply list_elem_of_filter. split; [by apply Is_true_true|].
    by apply elem_of_map_to_list.
Qed.

Lemma NoDup_to_delete now (d : gmap string info) : NoDup (to_delete now d).
Proof.
  unfold to_delete.
  apply (sublist_NoDup _ (map_to_list d).*1);
    [apply NoDup_fst_map_to_list | apply fmap_sublist, sublist_filter].
Qed.

Lemma kept_lookup now d k :
  kept now d !! k
  = if decide (k ∈ to_delete now d) then None else d !! k.
Proof.
  unfold kept. destruct (decide _) as [Hin|Hnin].
  - apply elem_of_to_delete in Hin as (i & Hi & He).
    apply map_lookup_filter_None. right. intros i' Hi' Hne. cbn in Hne.
    rewrite Hi in Hi'. injection Hi' as <-. apply Hne. by apply Is_true_true.
  - destruct (d !! k) as [i|] eqn:Hi.
    + apply map_lookup_filter_Some. split; [done|]. cbn. intros He.
      apply Hnin, elem_of_to_delete. exists i. split; [done|].
      by apply Is_true_true.
    + apply map_lookup_filter_None. by left.
Qed.

Lemma kept_all_iff now d : kept now d = d ↔ to_delete now d = [].
Proof.
  split.
  - intros Heq. destruct (to_delete now d) as [|id ids] eqn:Htd; [done|].
    assert (id ∈ to_delete now d) as Hin by (rewrite Htd; by left).
    pose proof (kept_lookup now d id) as Hk. rewrite decide_True in Hk by done.
    apply elem_of_to_delete in Hin as (i & Hi & _).
    rewrite Heq, Hi in Hk. done.
  - intros Htd. apply map_eq. intros k. rewrite kept_lookup, Htd.
    by rewrite decide_False by apply not_elem_of_nil.
Qed.




(** ** C1: no sweep inside [run_program] *)

(** C1 (the claim as stated fails). After a call for "a", made when both
    "a" and "b" have expired, the record of "b" is still in the store:
    the call did not sweep. *)
Lemma run_program_leaves_other_expired_record :
  let w' := snd (run_program sample_env after_expiry "a" "" None sample_world) in
  is_expired (now after_expiry) rec_b = true
  ∧ cpp_files w' !! "b" = Some rec_b
  ∧ json w' = Valid (delete "a" sample_store).
Proof. vm_compute. done. Qed.

(** C1 (as amended). [run_program] reloads the dictionary from
    [cpp_files.json] and looks at the requested id only: the record of
    every other id, expired or not, is in the dictionary afterwards exactly
    as it was loaded.  When the requested record has an expiration
    strictly before [now], it is taken out of the dictionary, no process is
    spawned and the call does not return a successful run. *)
Theorem run_program_checks_only_requested_id
    (env : Env) (clk : run_clock) (file_id custom_input : string)
    (expected_output : option string) (w : World) :
  let d := stored (json w) in
  ∃ r w' evs,
    run_program env clk file_id custom_input expected_output w = (r, w')
    ∧ trace w' = trace w ++ EvLoad :: evs
    ∧ (∀ j, j ≠ file_id → cpp_files w' !! j = d !! j)
    ∧ (∀ i, d !! file_id = Some i → is_expired (now clk) i = true →
         cpp_files w' !! file_id = None
         ∧ served r = false
         ∧ Forall (λ e, ¬ is_spawn e) evs).
Proof.
  intros d. pose proof (run_program_branch env clk file_id custom_input
                          expected_output w) as Hb.
  destruct (run_program _ _ _ _ _ _) as [r w'].
  invert_branch Hb;
    subst r w'; eexists _, _, _; (split; [reflexivity|]);
    cbn [cpp_files trace]; (split; [reflexivity|]).
  all: split; [intros j Hj; by rewrite ?lookup_delete_ne|].
  all: intros i' Hi' He'; unfold d in *.
  all: try congruence.
  all: try (assert (i' = i) as -> by congruence).
  all: try congruence.
  all: split; [apply lookup_delete_eq|]; split; [reflexivity|].
  all: repeat constructor; cbn; tauto.
Qed.

Lemma run_program_checks_only_requested_id_witness :
  ∃ r w',
    run_program sample_env after_expiry "a" "" None sample_world = (r, w')
    ∧ cpp_files w' !! "a" = None
    ∧ cpp_files w' !! "b" = Some rec_b
    ∧ served r = false.
Proof.
  destruct (run_program_checks_only_requested_id sample_env after_expiry "a" ""
              None sample_world) as (r & w' & evs & Hrun & _ & Hother & Hreq).
  destruct (Hreq rec_a) as (Ha & Hs & _); [reflexivity..|].
  exists r, w'. split; [exact Hrun|]. split; [exact Ha|]. split; [|exact Hs].
  rewrite Hother; [reflexivity|discriminate].
Defined.

(** ** C2: a failed removal during the lazy expiry *)

(** C2 (the code departs from the claim). The record of "a" has expired
    and its source file is gone.  The reaper logs the failed removal and
    returns; [run_program] on the same world raises the [OSError] to its
    caller: it returns no structured result, [cpp_files.json] still holds
    the record, and the output file is never removed. *)
Theorem run_program_expired_removal_failure_escapes :
  let sweep := cleanup_expired_files (now after_expiry) damaged_world in
  let call := run_program sample_env after_expiry "a" "" None damaged_world in
  is_expired (now after_expiry) rec_a = true
  ∧ fst sweep = Return ()
  ∧ stored (json (snd sweep)) !! "a" = None
  ∧ fst call = Raise (FileNotFoundError "/srv/cpps/a.cpp")
  ∧ cpp_files (snd call) !! "a" = None
  ∧ json (snd call) = Valid sample_store
  ∧ files (snd call) !! "/srv/cpps/a" = Some "BIN".
Proof. vm_compute. done. Qed.

(** ** C4, C10 and C5: the timeout and the completed run *)

Lemma timed_out_exceeds p :
  timed_out p → exceeds (duration p) (Some TIMEOUT) = true.
Proof.
  unfold timed_out, exceeds. destruct (duration p); [|done].
  intros. by apply bool_decide_eq_true.
Qed.

Lemma after_process_frame p f path :
  path ≠ "gmon.out" → after_process p f !! path = f !! path.
Proof.
  intros Hne. unfold after_process. destruct (gmon p); [|done].
  by rewrite lookup_insert_ne.
Qed.

Lemma after_process_is_Some p f path :
  is_Some (f !! path) → is_Some (after_process p f !! path).
Proof.
  unfold after_process. destruct (gmon p); [|done].
  destruct (decide (path = "gmon.out")) as [->|Hne].
  - rewrite lookup_insert_eq. eauto.
  - by rewrite lookup_insert_ne.
Qed.

(** The world that a timed-out call leaves, for a present record that
    has not expired. *)
Lemma run_program_timeout_world env clk file_id custom_input expected_output
    w i image :
  stored (json w) !! file_id = Some i →
  is_expired (now clk) i = false →
  files w !! output_path i = Some image →
  timed_out (machine env image custom_input) →
  run_program env clk file_id custom_input expected_output w
  = (Return (Failure "Execution timed out after 10 seconds."),
     mkWorld (stored (json w)) (json w)
       (after_process (machine env image custom_input) (files w))
       (trace w ++ [EvLoad; EvSpawn [output_path i] custom_input;
                    EvKill [output_path i]])).
Proof.
  intros Hi He Himg Ht.
  apply (run_program_timed_out _ _ _ _ _ _ _ Hi _ Himg He).
  by apply timed_out_exceeds.
Qed.

(** A completed run is a successful call, when the output of the
    program is text and gprof does its work. *)
Lemma run_program_in_time env clk file_id custom_input expected_output
    w i image :
  stored (json w) !! file_id = Some i →
  is_expired (now clk) i = false →
  files w !! output_path i = Some image →
  let p := machine env image custom_input in
  in_time p →
  decodes p = true →
  gprof_works env →
  ∃ report w',
    run_program env clk file_id custom_input expected_output w
    = (Return (Ran (p_stdout p) (p_stderr p)
                   (diff_of env expected_output (p_stdout p))
                   (end_time clk - start_time clk) report), w').
Proof.
  intros Hi He Himg p (t & Hd & Hle) Hdec [Hinst Hgdec].
  rewrite (run_program_completed _ _ _ _ _ _ _ Hi _ Himg _ He Hd Hle Hdec Hinst
             (Hgdec _ _)).
  eauto.
Qed.

(** C4. When the record is present and has not expired and the
    subprocess outlives the timeout, the child is killed and the call
    returns the timeout failure, whose only content is its fixed message
    (distinct from the two other failure messages, and without any of the
    output captured so far).  The record stays in the dictionary and in
    [cpp_files.json], no file other than gmon.out changes and no file
    disappears; a later call for the same id whose subprocess exits in
    time with output that is text, gprof doing its work, is a successful
    run. *)
Theorem run_program_timeout_keeps_artifact
    (env : Env) (clk : run_clock) (file_id custom_input : string)
    (expected_output : option string) (w : World) (i : info) (image : string) :
  stored (json w) !! file_id = Some i →
  is_expired (now clk) i = false →
  files w !! output_path i = Some image →
  timed_out (machine env image custom_input) →
  ∃ w',
    run_program env clk file_id custom_input expected_output w
    = (Return (Failure "Execution timed out after 10 seconds."), w')
    ∧ "Execution timed out after 10 seconds." ≠ "File ID not found."
    ∧ "Execution timed out after 10 seconds." ≠ "File ID has expired."
    ∧ trace w' = trace w ++ [EvLoad; EvSpawn [output_path i] custom_input;
                            EvKill [output_path i]]
    ∧ cpp_files w' !! file_id = Some i
    ∧ json w' = json w
    ∧ (∀ path, path ≠ "gmon.out" → files w' !! path = files w !! path)
    ∧ (∀ path, is_Some (files w !! path) → is_Some (files w' !! path))
    ∧ (∀ clk2 input2 expected2 image2,
         is_expired (now clk2) i = false →
         files w' !! output_path i = Some image2 →
         in_time (machine env image2 input2) →
         decodes (machine env image2 input2) = true →
         gprof_works env →
         served (fst (run_program env clk2 file_id input2 expected2 w')) = true).
Proof.
  intros Hi He Himg Ht. eexists.
  split; [by apply run_program_timeout_world|]. cbn [cpp_files json files trace].
  split; [done|]. split; [done|]. split; [done|]. split; [done|].
  split; [done|]. split; [intros; by apply after_process_frame|].
  split; [intros; by apply after_process_is_Some|].
  intros clk2 input2 expected2 image2 He2 Himg2 Hin Hdec Hgprof.
  edestruct (run_program_in_time env clk2 file_id input2 expected2)
    as (report & w2 & ->); [| |exact Himg2|exact Hin|exact Hdec|exact Hgprof|];
    done.
Qed.

Lemma run_program_timeout_witness :
  ∃ w',
    run_program sample_env before_expiry "l" "" None sample_world
    = (Return (Failure "Execution timed out after 10 seconds."), w')
    ∧ cpp_files w' !! "l" = Some rec_loop.
Proof.
  destruct (run_program_timeout_keeps_artifact sample_env before_expiry "l" ""
              None sample_world rec_loop "LOOP")
    as (w' & Hrun & _ & _ & _ & Hrec & _); [done..|].
  exists w'. split; [exact Hrun|exact Hrec].
Defined.

(** C10. In the timeout branch nothing is cleaned up.  The files after
    the call are the files the killed process left: a gmon.out that it
    wrote, or one that was there before, is still there.  The events of
    the call are the reload, the spawn of the program and its kill; there
    is no removal, no spawn of gprof and no save.  The dictionary is the
    one just loaded, [cpp_files.json] is unchanged, and the result is the
    timeout failure alone. *)
Theorem run_program_timeout_no_cleanup
    (env : Env) (clk : run_clock) (file_id custom_input : string)
    (expected_output : option string) (w : World) (i : info) (image : string) :
  stored (json w) !! file_id = Some i →
  is_expired (now clk) i = false →
  files w !! output_path i = Some image →
  timed_out (machine env image custom_input) →
  let p := machine env image custom_input in
  ∃ w' evs,
    run_program env clk file_id custom_input expected_output w
    = (Return (Failure "Execution timed out after 10 seconds."), w')
    ∧ files w' = after_process p (files w)
    ∧ files w' !! "gmon.out"
      = match gmon p with
        | Some g => Some g
        | None => files w !! "gmon.out"
        end
    ∧ trace w' = trace w ++ evs
    ∧ Forall (λ e, ¬ is_remove e ∧ ¬ is_gprof e ∧ ¬ is_save e) evs
    ∧ cpp_files w' = stored (json w)
    ∧ json w' = json w.
Proof.
  intros Hi He Himg Ht p. eexists _, _.
  split; [by apply run_program_timeout_world|]. cbn [cpp_files json files trace].
  split; [done|]. split.
  { fold p. unfold after_process. destruct (gmon p); [|done].
    apply lookup_insert_eq. }
  split; [reflexivity|]. split; [|done].
  repeat constructor; cbn; tauto.
Qed.

Lemma run_program_timeout_no_cleanup_witness :
  ∃ w',
    run_program sample_env before_expiry "l" "" None
      (mkWorld ∅ (Valid sample_store) (<["gmon.out" := "stale"]> sample_files) [])
    = (Return (Failure "Execution timed out after 10 seconds."), w')
    ∧ files w' !! "gmon.out" = Some "stale".
Proof.
  destruct (run_program_timeout_no_cleanup sample_env before_expiry "l" "" None
              (mkWorld ∅ (Valid sample_store)
                 (<["gmon.out" := "stale"]> sample_files) [])
              rec_loop "LOOP")
    as (w' & evs & Hrun & _ & Hg & _); [done..|].
  exists w'. split; [exact Hrun|exact Hg].
Defined.

(** C5 (the claim as stated fails). The record of "x" is present and
    has not expired and its subprocess exits well within the timeout, but
    what it prints is not text: decoding the output raises, and the
    exception leaves [run_program], which returns neither a successful
    run nor one of the three failures. *)
Lemma run_program_undecodable_output_is_not_a_success :
  let p := machine sample_env "BYTES" "" in
  stored (json bytes_world) !! "x" = Some rec_bytes
  ∧ is_expired (now before_expiry) rec_bytes = false
  ∧ files bytes_world !! output_path rec_bytes = Some "BYTES"
  ∧ in_time p
  ∧ fst (run_program sample_env before_expiry "x" "" None bytes_world)
    = Raise UnicodeDecodeError.
Proof.
  repeat split; try reflexivity.
  exists 800. split; [reflexivity|]. unfold TIMEOUT. lia.
Qed.

(** C5 (as amended). When the record is present and has not expired,
    the subprocess exits within the timeout, what it prints is text and
    gprof does its work, the call returns a successful run whatever the
    return code of the process is, with the stdout and the stderr that
    were captured.  And every response that [run_program] returns is a
    successful run or one of three failures: not found, expired, timed
    out. *)
Theorem run_program_exit_status_is_not_a_failure :
  (∀ (env : Env) (clk : run_clock) (file_id custom_input : string)
     (expected_output : option string) (w : World) (i : info) (image : string),
     stored (json w) !! file_id = Some i →
     is_expired (now clk) i = false →
     files w !! output_path i = Some image →
     let p := machine env image custom_input in
     in_time p →
     decodes p = true →
     gprof_works env →
     ∃ diff run_time report w',
       run_program env clk file_id custom_input expected_output w
       = (Return (Ran (p_stdout p) (p_stderr p) diff run_time report), w'))
  ∧ (∀ (env : Env) (clk : run_clock) (file_id custom_input : string)
       (expected_output : option string) (w w' : World) (r : response),
       run_program env clk file_id custom_input expected_output w
       = (Return r, w') →
       served (Return r) = true
       ∨ r = Failure "File ID not found."
       ∨ r = Failure "File ID has expired."
       ∨ r = Failure "Execution timed out after 10 seconds.").
Proof.
  split.
  - intros env clk file_id custom_input expected_output w i image Hi He Himg p
      Hin Hdec Hgprof.
    destruct (run_program_in_time env clk file_id custom_input expected_output
                w i image Hi He Himg Hin Hdec Hgprof) as (report & w' & Hrun).
    eauto.
  - intros env clk file_id custom_input expected_output w w' r Hrun.
    pose proof (run_program_branch env clk file_id custom_input
                  expected_output w) as Hb.
    rewrite Hrun in Hb. inversion Hb; auto.
Qed.

Lemma run_program_crash_witness :
  ∃ diff run_time report w',
    run_program sample_env before_expiry "c" "" None sample_world
    = (Return (Ran "" "AddressSanitizer: SEGV" diff run_time report), w').
Proof.
  apply (proj1 run_program_exit_status_is_not_a_failure sample_env before_expiry
           "c" "" None sample_world rec_crash "CRASH"); [done..| | |].
  - exists 1200. split; [reflexivity|]. unfold TIMEOUT. lia.
  - reflexivity.
  - split; [reflexivity|done].
Defined.

(** ** C6: a failed compilation *)

(** C6. When the compiler exits with a nonzero status, [create_program]
    returns the failure whose error is the compiler's stderr, unchanged.
    The source file written for the attempt is removed again and no other
    file changes, so the attempt leaves no output file behind; the
    dictionary and [cpp_files.json] are as before and the events of the
    call contain no save. *)
Theorem create_program_compile_error
    (env : Env) (clk : build_clock) (content : string) (w : World) :
  cc_returncode (clang env content) ≠ 0 →
  let cpps_dir := path_join (base_dir env) "cpps" in
  let src := path_join cpps_dir (uuid4 clk +:+ ".cpp") in
  let out := path_join cpps_dir (uuid4 clk) in
  ∃ w' evs,
    create_program env clk content w
    = (Return (Failure (cc_stderr (clang env content))), w')
    ∧ files w' !! src = None
    ∧ (∀ path, path ≠ src → files w' !! path = files w !! path)
    ∧ (files w !! out = None → files w' !! out = None)
    ∧ cpp_files w' = cpp_files w
    ∧ json w' = json w
    ∧ trace w' = trace w ++ evs
    ∧ Forall (λ e, ¬ is_save e) evs.
Proof.
  intros Hrc cpps_dir src out. eexists _, _.
  split; [by apply create_program_failed|]. cbn [cpp_files json files trace].
  fold cpps_dir. fold src.
  split; [apply lookup_delete_eq|].
  split; [intros path Hne; by rewrite lookup_delete_ne|].
  split.
  { intros Hout. rewrite lookup_delete_ne; [done|].
    apply path_join_cpp_ne. }
  split; [done|]. split; [done|]. split; [reflexivity|].
  repeat constructor; cbn; tauto.
Qed.

Lemma create_program_compile_error_witness :
  ∃ w',
    create_program sample_env (BuildClock "u1" "2026-01-02T00:00:00")
      "int main() { return 0 }" empty_world
    = (Return (Failure "main.cpp:1:1: error: expected ';'"), w')
    ∧ files w' !! "/srv/cpps/u1.cpp" = None
    ∧ cpp_files w' = ∅.
Proof.
  destruct (create_program_compile_error sample_env
              (BuildClock "u1" "2026-01-02T00:00:00")
              "int main() { return 0 }" empty_world)
    as (w' & evs & Hrun & Hsrc & _ & _ & Hd & _); [done|].
  exists w'. split; [exact Hrun|]. split; [exact Hsrc|exact Hd].
Defined.

(** ** C7: the diff *)

Lemma run_program_Ran_inv env clk file_id custom_input expected_output w w'
    stdout stderr diff run_time report :
  run_program env clk file_id custom_input expected_output w
  = (Return (Ran stdout stderr diff run_time report), w') →
  ∃ i image,
    stored (json w) !! file_id = Some i
    ∧ is_expired (now clk) i = false
    ∧ files w !! output_path i = Some image
    ∧ in_time (machine env image custom_input)
    ∧ stdout = p_stdout (machine env image custom_input)
    ∧ stderr = p_stderr (machine env image custom_input)
    ∧ diff = diff_of env expected_output stdout
    ∧ run_time = end_time clk - start_time clk
    ∧ report
      = str_take 500
          (collapse4
             (report_of env i
                (after_process (machine env image custom_input) (files w)))).
Proof.
  intros Hrun.
  pose proof (run_program_branch env clk file_id custom_input
                expected_output w) as Hb.
  rewrite Hrun in Hb.
  invert_branch Hb; subst.
  exists i, image. unfold in_time. repeat split; eauto.
Qed.

(** *** The lines come back *)

Lemma str_join_cons x xs : str_join "" (x :: xs) = x +:+ str_join "" xs.
Proof.
  unfold str_join. destruct xs as [|y ys]; [|reflexivity].
  cbn [String.concat]. by rewrite str_app_nil_r.
Qed.



(** *** The opcodes of equal and of different sequences *)

Lemma is_equal_keep_tail n c : is_equal (keep_tail n c) = is_equal c.
Proof. reflexivity. Qed.

Lemma is_equal_keep_head n c : is_equal (keep_head n c) = is_equal c.
Proof. reflexivity. Qed.
















(** The diff of the sample run, line by line. *)
Example sample_diff :
  diff_of sample_env (Some ("out:1" +:+ LF +:+ "2" +:+ LF))
    ("out:1" +:+ LF +:+ "3" +:+ LF)
  = Some ("--- expected_output" +:+ LF +:+
          "+++ actual_output" +:+ LF +:+
          "@@ -1,2 +1,2 @@" +:+ LF +:+
          " out:1" +:+ LF +:+
          "-2" +:+ LF +:+
          "+3" +:+ LF).
Proof. vm_compute. reflexivity. Qed.

(** A changed line between two kept ones, with the blocks that
    [SequenceMatcher] reports for these sequences. *)
Example unified_diff_changed_line :
  unified_diff [(0, 0, 1); (2, 2, 1); (3, 3, 0)]%nat
    ["a" +:+ LF; "b" +:+ LF; "c" +:+ LF]
    ["a" +:+ LF; "x" +:+ LF; "c" +:+ LF]
    "expected_output" "actual_output"
  = ["--- expected_output" +:+ LF;
     "+++ actual_output" +:+ LF;
     "@@ -1,3 +1,3 @@" +:+ LF;
     " a" +:+ LF;
     "-b" +:+ LF;
     "+x" +:+ LF;
     " c" +:+ LF].
Proof. vm_compute. reflexivity. Qed.

(** ** C8: the profiling report *)

Lemma collapse_pairs_cons c r :
  collapse_pairs (String c r)
  = match r with
    | String c' r' =>
        if Ascii.eqb c " " && Ascii.eqb c' " "
        then String " " (collapse_pairs r')
        else String c (collapse_pairs r)
    | EmptyString => String c EmptyString
    end.
Proof.
  destruct r as [|c' r'].
  - destruct c as [[] [] [] [] [] [] [] []]; reflexivity.
  - destruct (Ascii.eqb_spec c " ") as [->|Hc].
    + destruct (Ascii.eqb_spec c' " ") as [->|Hc']; [reflexivity|].
      destruct c' as [[] [] [] [] [] [] [] []]; try reflexivity. done.
    + destruct c as [[] [] [] [] [] [] [] []]; try reflexivity. done.
Qed.

Lemma prefix_two_spaces c r :
  String.prefix "  " (String c r)
  = match r with
    | String c' _ => Ascii.eqb c " " && Ascii.eqb c' " "
    | EmptyString => false
    end.
Proof.
  cbn [String.prefix].
  destruct (ascii_dec " " c) as [<-|Hc].
  - destruct r as [|c' r']; [reflexivity|]. cbn [String.prefix].
    destruct (ascii_dec " " c') as [<-|Hc']; [by destruct r'|].
    destruct (Ascii.eqb_spec c' " "); [congruence|reflexivity].
  - destruct (Ascii.eqb_spec c " "); [congruence|]. by destruct r.
Qed.

Lemma replace_two_spaces_go s :
  replace_go "  " " " 0 s = collapse_pairs s
  ∧ ∀ c, replace_go "  " " " 0 (String c s) = collapse_pairs (String c s).
Proof.
  induction s as [|c' r [IH1 IH2]].
  - split; [reflexivity|]. intros c. rewrite collapse_pairs_cons.
    cbn [replace_go]. rewrite prefix_two_spaces. reflexivity.
  - split; [apply IH2|]. intros c. rewrite collapse_pairs_cons.
    cbn [replace_go]. rewrite prefix_two_spaces.
    destruct (Ascii.eqb c " " && Ascii.eqb c' " ").
    + cbn [String.length pred]. by rewrite IH1.
    + rewrite <- IH2. reflexivity.
Qed.

(** The [replace] of the module is the pass in the words of the
    specification. *)
Lemma str_replace_two_spaces s : str_replace "  " " " s = collapse_pairs s.
Proof. apply replace_two_spaces_go. Qed.

Lemma collapse4_iter s : collapse4 s = Nat.iter 4 collapse_pairs s.
Proof. unfold collapse4. by rewrite !str_replace_two_spaces. Qed.

Lemma str_take_length n s : (String.length (str_take n s) ≤ n)%nat.
Proof.
  revert s. induction n as [|n IH]; intros [|c s]; cbn; try lia.
  specialize (IH s). lia.
Qed.

(** C8. The profiling report of a successful run is the stdout of the
    profiler (run on the executable and on the gmon.out that the program
    left) after four passes of [collapse_pairs], cut to its first 500
    characters: the passes come first, the cut second. *)
Theorem run_program_profiling_report
    (env : Env) (clk : run_clock) (file_id custom_input : string)
    (expected_output : option string) (w w' : World)
    (stdout stderr : string) (diff : option string) (run_time : Z)
    (report : string) :
  run_program env clk file_id custom_input expected_output w
  = (Return (Ran stdout stderr diff run_time report), w') →
  ∃ i image,
    stored (json w) !! file_id = Some i
    ∧ files w !! output_path i = Some image
    ∧ let f := after_process (machine env image custom_input) (files w) in
      let gprof_stdout := gprof env (f !! output_path i) (f !! "gmon.out") in
      report
      = str_take 500
          (collapse_pairs
             (collapse_pairs (collapse_pairs (collapse_pairs gprof_stdout))))
      ∧ (String.length report ≤ 500)%nat.
Proof.
  intros Hrun.
  apply run_program_Ran_inv in Hrun
    as (i & image & Hi & _ & Himg & _ & _ & _ & _ & _ & ->).
  exists i, image. split; [done|]. split; [done|]. cbv zeta.
  split; [|apply str_take_length].
  by rewrite collapse4_iter.
Qed.

Lemma run_program_profiling_report_witness :
  ∃ w' diff,
    run_program sample_env before_expiry "a" "in" None sample_world
    = (Return (Ran "out:in" "" diff 5000 "Flat profile: main"), w').
Proof.
  destruct (run_program sample_env before_expiry "a" "in" None sample_world)
    as [r w'] eqn:Hrun.
  assert (∃ diff report, r = Return (Ran "out:in" "" diff 5000 report))
    as (diff & report & ->).
  { vm_compute in Hrun. injection Hrun as <- _. eauto. }
  destruct (run_program_profiling_report _ _ _ _ _ _ _ _ _ _ _ _ Hrun)
    as (i & image & Hi & Himg & Hrep & _).
  vm_compute in Hi. injection Hi as <-.
  vm_compute in Himg. injection Himg as <-.
  rewrite Hrep. by eauto.
Defined.

(** The order of the two steps matters: cutting first gives another
    report. *)
Example collapse_then_cut_differs :
  str_take 3 (collapse_pairs "a  bc") ≠ collapse_pairs (str_take 3 "a  bc").
Proof. vm_compute. done. Qed.

(** ** C9: the composite orchestrator *)

(** A call for a record that has not expired leaves the record, the
    JSON file and every file other than gmon.out as they were. *)
Lemma run_program_fresh_frame env clk file_id custom_input expected_output w i :
  stored (json w) !! file_id = Some i →
  is_expired (now clk) i = false →
  let w' := snd (run_program env clk file_id custom_input expected_output w) in
  cpp_files w' !! file_id = Some i
  ∧ json w' = json w
  ∧ ∀ path, path ≠ "gmon.out" → files w' !! path = files w !! path.
Proof.
  intros Hi He.
  pose proof (run_program_branch env clk file_id custom_input
                expected_output w) as Hb.
  destruct (run_program _ _ _ _ _ _) as [r w'].
  inversion Hb; subst; cbn [snd cpp_files json files]; try congruence;
    (split; [done|]); (split; [done|]); intros path Hpath;
    rewrite ?lookup_delete_ne by done;
    first [done | by apply after_process_frame].
Qed.

(** C9. [create_and_run_program] builds first.  If the compiler fails,
    the call is the failed [create_program] call and nothing more: the
    same result and the same world, with no reload of the store, which is
    the first step of every [run_program].  If the compiler succeeds, the
    call is [create_program] followed by [run_program] for the id just
    created, with the same stdin and expected output; it returns both
    responses together and ends in the world that the run left, so nothing
    is removed after the run: when the run did not find the record
    expired, the record and both of its files are still there. *)
Theorem create_and_run_program_spec
    (env : Env) (bclk : build_clock) (rclk : run_clock)
    (content custom_input : string) (expected_output : option string)
    (w : World) :
  let c := clang env content in
  let file_id := uuid4 bclk in
  let cpps_dir := path_join (base_dir env) "cpps" in
  let record := Info (path_join cpps_dir file_id)
                     (path_join cpps_dir (file_id +:+ ".cpp"))
                     (now_plus_one_day bclk) in
  let call := create_and_run_program env bclk rclk content custom_input
                expected_output w in
  (cc_returncode c ≠ 0 →
     call = create_program env bclk content w
     ∧ fst call = Return (Failure (cc_stderr c))
     ∧ ∃ evs, trace (snd call) = trace w ++ evs ∧ Forall (λ e, ¬ is_load e) evs)
  ∧ (cc_returncode c = 0 →
     ∃ w1,
       create_program env bclk content w = (Return (Created file_id), w1)
       ∧ call
         = (let (r, w2) := run_program env rclk file_id custom_input
                             expected_output w1 in
            match r with
            | Return run_response =>
                (Return (Combined (Created file_id) run_response), w2)
            | Raise e => (Raise e, w2)
            end)
       ∧ (is_expired (now rclk) record = false →
          cpp_files (snd call) !! file_id = Some record
          ∧ stored (json (snd call)) !! file_id = Some record
          ∧ files (snd call) !! source_path record = Some content
          ∧ files (snd call) !! output_path record = Some (cc_binary c))).
Proof.
  intros c file_id cpps_dir record call. split.
  - intros Hrc. subst call.
    unfold create_and_run_program, _create_and_run_program.
    rewrite bind_run. fold (create_program env bclk content w).
    rewrite (create_program_failed env bclk content w Hrc).
    cbn [success negb fst snd trace]. split; [reflexivity|].
    split; [reflexivity|]. eexists. split; [reflexivity|].
    repeat constructor; cbn; tauto.
  - intros Hrc. eexists. split; [by apply create_program_stored|].
    subst call. unfold create_and_run_program, _create_and_run_program.
    rewrite bind_run. fold (create_program env bclk content w).
    rewrite (create_program_stored env bclk content w Hrc).
    cbn [success negb getitem_file_id]. rewrite bind_run.
    rewrite ret_run. cbv beta iota.
    rewrite bind_run.
    fold cpps_dir. fold file_id. fold record.
    fold (run_program env rclk file_id custom_input expected_output).
    set (w1 := mkWorld _ _ _ _).
    split; [by destruct (run_program _ _ _ _ _ w1) as [[r|e] w2]|].
    intros He.
    assert (stored (json w1) !! file_id = Some record) as Hi
      by apply lookup_insert_eq.
    destruct (run_program_fresh_frame env rclk file_id custom_input
                expected_output w1 record Hi He) as (Hd & Hj & Hf).
    destruct (run_program _ _ _ _ _ w1) as [[r|e] w2];
      rewrite ?ret_run; cbn [snd] in *; rewrite Hj.
    all: split; [done|]; split; [done|].
    all: rewrite !Hf by apply path_join_ne_gmon.
    all: subst w1; cbn [files source_path output_path record].
    all: split; [|apply lookup_insert_eq].
    all: rewrite lookup_insert_ne by (apply not_eq_sym, path_join_cpp_ne).
    all: apply lookup_insert_eq.
Qed.

Lemma create_and_run_program_witness :
  fst (create_and_run_program sample_env (BuildClock "u1" "2026-01-02T00:00:00")
         before_expiry "int main() { return 0 }" "" None empty_world)
  = Return (Failure "main.cpp:1:1: error: expected ';'")
  ∧ cpp_files (snd (create_and_run_program sample_env
                      (BuildClock "u2" "2026-01-02T00:00:00") before_expiry
                      "ok" "7" None empty_world)) !! "u2"
    = Some (Info "/srv/cpps/u2" "/srv/cpps/u2.cpp" "2026-01-02T00:00:00").
Proof.
  split.
  - apply (proj1 (create_and_run_program_spec sample_env
                    (BuildClock "u1" "2026-01-02T00:00:00") before_expiry
                    "int main() { return 0 }" "" None empty_world)).
    done.
  - destruct (proj2 (create_and_run_program_spec sample_env
                       (BuildClock "u2" "2026-01-02T00:00:00") before_expiry
                       "ok" "7" None empty_world))
      as (w1 & _ & _ & Hkeep); [done|].
    apply Hkeep. reflexivity.
Defined.

(** * Further properties of the module *)

(** ** The sweep and the startup hook *)

Lemma cleanup_loop_cons id0 ids i0 w :
  cpp_files w !! id0 = Some i0 →
  cleanup_loop (id0 :: ids) w
  = cleanup_loop ids
      (mkWorld (delete id0 (cpp_files w)) (json w)
         (reaped_files i0 (files w))
         (trace w ++ reaped_events id0 i0 (files w))).
Proof.
  intros Hi0. cbn [cleanup_loop].
  rewrite bind_run, (cpp_files_pop_run _ _ _ Hi0). cbv beta iota.
  rewrite bind_run, reap_try_run. cbv beta iota.
  reflexivity.
Qed.

Lemma cleanup_nothing_to_delete now w :
  to_delete now (cpp_files w) = [] →
  cleanup_expired_files now w = (Return (), w).
Proof.
  intros Htd. unfold cleanup_expired_files. rewrite bind_run.
  change (get_cpp_files w) with (Return (cpp_files w), w). cbv beta iota zeta.
  rewrite Htd. reflexivity.
Qed.

Lemma to_delete_kept now d : to_delete now (kept now d) = [].
Proof.
  destruct (to_delete now (kept now d)) as [|id ids] eqn:Htd; [done|].
  assert (id ∈ to_delete now (kept now d)) as Hin by (rewrite Htd; by left).
  apply elem_of_to_delete in Hin as (i & Hi & He).
  apply map_lookup_filter_Some in Hi as [_ Hne]. cbn in Hne.
  exfalso. apply Hne. by apply Is_true_true.
Qed.

(** What a sweep leaves in the dictionary and in the JSON file. *)
Lemma cleanup_expired_files_store now w :
  ∃ w',
    cleanup_expired_files now w = (Return (), w')
    ∧ cpp_files w' = kept now (cpp_files w)
    ∧ json w' = (if decide (kept now (cpp_files w) = cpp_files w)
                 then json w else Valid (kept now (cpp_files w)))
    ∧ (∀ p c, files w' !! p = Some c → files w !! p = Some c).
Proof.
  destruct (decide (kept now (cpp_files w) = cpp_files w)) as [Hall|Hsome].
  - exists w. rewrite cleanup_nothing_to_delete by by apply kept_all_iff.
    by rewrite Hall.
  - unfold cleanup_expired_files. rewrite bind_run.
    change (get_cpp_files w) with (Return (cpp_files w), w). cbv beta iota zeta.
    rewrite bind_run.
    destruct (cleanup_loop_run (to_delete now (cpp_files w)) w
                (NoDup_to_delete now (cpp_files w)))
      as (w1 & evs & Hrun & Hd & Hj & Hsub & _).
    { intros id (i & Hi & _)%elem_of_to_delete. by exists i. }
    rewrite Hrun.
    assert (cpp_files w1 = kept now (cpp_files w)) as Hkept.
    { apply map_eq. intros k. by rewrite Hd, kept_lookup. }
    destruct (to_delete now (cpp_files w)) as [|id0 ids] eqn:Htd.
    { exfalso. by apply Hsome, kept_all_iff. }
    rewrite save_cpp_files_run. eexists. split; [reflexivity|].
    cbn [cpp_files json files]. by rewrite Hkept.
Qed.

(** X1. The startup hook, for the three kinds of [cpp_files.json] that
    [load_cpp_files] tells apart.  When the file is absent, or is a text
    that [json.load] refuses with [JSONDecodeError], the hook returns with
    an empty dictionary and writes and removes nothing.  When the file
    holds an object of records, the hook returns with exactly the records
    whose expiration is not strictly before [now]; the dictionary and the
    JSON file then agree, and no file has been created. *)
Theorem lifespan_spec (now : string) (w : World) :
  (json w = Missing ∨ json w = Malformed →
     lifespan now w
     = (Return (), mkWorld ∅ (json w) (files w) (trace w ++ [EvLoad])))
  ∧ (∀ d, json w = Valid d →
       ∃ w',
         lifespan now w = (Return (), w')
         ∧ cpp_files w' = kept now d
         ∧ synced w'
         ∧ (∀ id i, cpp_files w' !! id = Some i →
              d !! id = Some i ∧ is_expired now i = false)
         ∧ (∀ p c, files w' !! p = Some c → files w !! p = Some c)).
Proof.
  unfold lifespan. rewrite bind_run, load_cpp_files_run. cbv beta iota.
  split.
  - intros Hj.
    assert (stored (json w) = ∅) as -> by (by destruct Hj as [-> | ->]).
    by apply cleanup_nothing_to_delete.
  - intros d Hjd. rewrite Hjd. cbn [stored].
    set (w0 := mkWorld _ _ _ _).
    destruct (cleanup_expired_files_store now w0)
      as (w' & Hrun & Hd & Hj & Hsub).
    exists w'. rewrite Hrun. subst w0. cbn [cpp_files json files] in *.
    split; [done|]. split; [done|]. split.
    { unfold synced. rewrite Hd, Hj. by destruct (decide _) as [->|]. }
    split; [|done].
    intros id i. rewrite Hd. intros [Hi Hne]%map_lookup_filter_Some.
    split; [done|]. cbn in Hne. by apply Is_true_false.
Qed.

(** X2. A second sweep at the same instant does nothing: it returns
    normally and leaves the world, trace included, as the first sweep
    left it. *)
Theorem cleanup_expired_files_idempotent (now : string) (w : World) :
  let w' := snd (cleanup_expired_files now w) in
  cleanup_expired_files now w' = (Return (), w').
Proof.
  destruct (cleanup_expired_files_store now w) as (w' & Hrun & Hd & _).
  rewrite Hrun. cbn [snd]. apply cleanup_nothing_to_delete.
  rewrite Hd. apply to_delete_kept.
Qed.

Lemma cleanup_loop_files_frame ids : ∀ w p,
  NoDup ids →
  (∀ id, id ∈ ids → is_Some (cpp_files w !! id)) →
  (∀ id i, id ∈ ids → cpp_files w !! id = Some i →
     p ≠ source_path i ∧ p ≠ output_path i) →
  files (snd (cleanup_loop ids w)) !! p = files w !! p.
Proof.
  induction ids as [|id0 ids IH]; intros w p Hnd Hin Hp; [done|].
  apply NoDup_cons in Hnd as [Hnotin Hnd].
  destruct (Hin id0) as [i0 Hi0]; [by left|].
  rewrite (cleanup_loop_cons _ _ _ _ Hi0).
  rewrite IH; cbn [cpp_files files]; [|done|..].
  - destruct (Hp id0 i0) as [? ?]; [by left|done|].
    by apply reaped_files_frame.
  - intros id Hid. rewrite lookup_delete_ne by (intros ->; done).
    apply Hin. by right.
  - intros id i Hid. rewrite lookup_delete_ne by (intros ->; done).
    apply Hp. by right.
Qed.

(** X3. The sweep leaves alone every path that no expired record names
    as its source or output file. *)
Theorem cleanup_expired_files_keeps_live_files
    (now : string) (w : World) (path : string) :
  (∀ id i, cpp_files w !! id = Some i → is_expired now i = true →
     path ≠ source_path i ∧ path ≠ output_path i) →
  files (snd (cleanup_expired_files now w)) !! path = files w !! path.
Proof.
  intros Hp. unfold cleanup_expired_files. rewrite bind_run.
  change (get_cpp_files w) with (Return (cpp_files w), w). cbv beta iota zeta.
  rewrite bind_run.
  pose proof (cleanup_loop_files_frame (to_delete now (cpp_files w)) w path
                (NoDup_to_delete now (cpp_files w))) as Hframe.
  destruct (cleanup_loop_run (to_delete now (cpp_files w)) w
              (NoDup_to_delete now (cpp_files w)))
    as (w1 & evs & Hrun & _).
  { intros id (i & Hi & _)%elem_of_to_delete. by exists i. }
  rewrite Hrun in *. cbn [snd] in Hframe.
  rewrite <- Hframe.
  - destruct (to_delete now (cpp_files w)); [done|].
    by rewrite save_cpp_files_run.
  - intros id (i & Hi & _)%elem_of_to_delete. by exists i.
  - intros id i (i' & Hi' & He)%elem_of_to_delete Hi.
    assert (i' = i) as -> by congruence. eauto.
Qed.

Lemma cleanup_expired_files_keeps_live_files_witness :
  files (snd (cleanup_expired_files (now after_expiry)
                (mkWorld {[ "a" := rec_a ]} Missing sample_files [])))
    !! "/srv/cpps/b"
  = Some "BIN".
Proof.
  rewrite cleanup_expired_files_keeps_live_files; [reflexivity|].
  intros id i Hi _. cbn [cpp_files] in Hi.
  apply lookup_singleton_Some in Hi as [<- <-]. done.
Defined.

(** ** Calls of [run_program] *)

(** X4. [run_program] does not depend on the dictionary held in memory:
    it starts from what [cpp_files.json] holds. *)
Theorem run_program_ignores_memory
    (env : Env) (clk : run_clock) (file_id custom_input : string)
    (expected_output : option string)
    (d1 d2 : gmap string info) (j : json_file) (f : gmap string string)
    (t : list event) :
  run_program env clk file_id custom_input expected_output (mkWorld d1 j f t)
  = run_program env clk file_id custom_input expected_output (mkWorld d2 j f t).
Proof.
  unfold run_program, _run_program.
  rewrite (bind_run load_cpp_files _ (mkWorld d1 j f t)).
  rewrite (bind_run load_cpp_files _ (mkWorld d2 j f t)).
  by rewrite !load_cpp_files_run.
Qed.

(** X5. Unless the requested record has expired, a call of
    [run_program] (found or not, finished, timed out or failed to spawn)
    leaves [cpp_files.json] and every file other than gmon.out as they
    were, leaves in memory the dictionary it loaded, saves nothing and
    removes no file but gmon.out. *)
Theorem run_program_read_only_unless_expired
    (env : Env) (clk : run_clock) (file_id custom_input : string)
    (expected_output : option string) (w : World) :
  (∀ i, stored (json w) !! file_id = Some i → is_expired (now clk) i = false) →
  let w' := snd (run_program env clk file_id custom_input expected_output w) in
  cpp_files w' = stored (json w)
  ∧ json w' = json w
  ∧ (∀ path, path ≠ "gmon.out" → files w' !! path = files w !! path)
  ∧ ∃ evs, trace w' = trace w ++ EvLoad :: evs
           ∧ Forall (λ e, ¬ is_save e) evs
           ∧ Forall (λ e, ∀ path, e = EvRemove path → path = "gmon.out") evs.
Proof.
  intros Hlive.
  pose proof (run_program_branch env clk file_id custom_input
                expected_output w) as Hb.
  destruct (run_program _ _ _ _ _ _) as [r w'].
  invert_branch Hb;
    subst r w'; cbn [snd cpp_files json files trace].
  2-4: specialize (Hlive i Hi); congruence.
  all: split; [done|]; split; [done|]; split.
  all: try (intros path Hne; try unfold f; rewrite ?lookup_delete_ne by done;
            by rewrite ?after_process_frame by done).
  all: eexists; split; [reflexivity|].
  all: try (destruct (f !! "gmon.out")).
  all: split; repeat constructor; cbn; try tauto; try congruence.
Qed.

Lemma run_program_read_only_unless_expired_witness :
  json (snd (run_program sample_env before_expiry "zzz" "" None sample_world))
  = Valid sample_store.
Proof.
  apply (run_program_read_only_unless_expired sample_env before_expiry "zzz" ""
           None sample_world).
  intros i Hi. vm_compute in Hi. discriminate.
Defined.

(** X6. When the requested record has expired and its two files are
    there under different paths, the call returns the expired failure,
    both files are gone, no other file changes, the JSON file holds the
    store without the record, and every later call for the id returns
    the not-found failure. *)
Theorem run_program_expired_then_not_found
    (env : Env) (clk : run_clock) (file_id custom_input : string)
    (expected_output : option string) (w : World) (i : info) :
  stored (json w) !! file_id = Some i →
  is_expired (now clk) i = true →
  is_Some (files w !! source_path i) →
  is_Some (files w !! output_path i) →
  source_path i ≠ output_path i →
  ∃ w1,
    run_program env clk file_id custom_input expected_output w
    = (Return (Failure "File ID has expired."), w1)
    ∧ files w1 !! source_path i = None
    ∧ files w1 !! output_path i = None
    ∧ (∀ path, path ≠ source_path i → path ≠ output_path i →
         files w1 !! path = files w !! path)
    ∧ json w1 = Valid (delete file_id (stored (json w)))
    ∧ ∀ clk2 input2 expected2,
        fst (run_program env clk2 file_id input2 expected2 w1)
        = Return (Failure "File ID not found.").
Proof.
  intros Hi He [c Hs] [c' Ho] Hne.
  assert (delete (source_path i) (files w) !! output_path i = Some c') as Ho'
    by by rewrite lookup_delete_ne.
  rewrite (run_program_expired_removed _ _ _ _ _ _ _ Hi _ _ He Hs Ho').
  eexists. split; [reflexivity|]. cbn [cpp_files json files].
  split; [rewrite lookup_delete_ne by done; apply lookup_delete_eq|].
  split; [apply lookup_delete_eq|].
  split; [intros path H1 H2; by rewrite !lookup_delete_ne|].
  split; [done|].
  intros clk2 input2 expected2.
  rewrite run_program_not_found; [done|]. cbn [json stored].
  apply lookup_delete_eq.
Qed.

Lemma run_program_expired_then_not_found_witness :
  ∃ w1,
    run_program sample_env after_expiry "a" "" None sample_world
    = (Return (Failure "File ID has expired."), w1)
    ∧ fst (run_program sample_env before_expiry "a" "" None w1)
      = Return (Failure "File ID not found.").
Proof.
  destruct (run_program_expired_then_not_found sample_env after_expiry "a" ""
              None sample_world rec_a)
    as (w1 & Hrun & _ & _ & _ & _ & Hnext); [done|done|by eexists..|done|].
  exists w1. split; [exact Hrun|apply Hnext].
Defined.

(** X7. On a machine without gprof no run succeeds.  When the record
    is present and has not expired and the subprocess exits within the
    timeout with output that is text, the spawn of gprof raises
    [FileNotFoundError], and the exception leaves [run_program].  By then
    the program has run: the files are those it left, with the gmon.out
    that it wrote; the record and [cpp_files.json] are as they were, and
    the events of the call are the reload and the spawn of the program. *)
Theorem run_program_without_gprof
    (env : Env) (clk : run_clock) (file_id custom_input : string)
    (expected_output : option string) (w : World) (i : info) (image : string) :
  stored (json w) !! file_id = Some i →
  is_expired (now clk) i = false →
  files w !! output_path i = Some image →
  let p := machine env image custom_input in
  in_time p →
  decodes p = true →
  gprof_installed env = false →
  ∃ w',
    run_program env clk file_id custom_input expected_output w
    = (Raise (FileNotFoundError "gprof"), w')
    ∧ files w' = after_process p (files w)
    ∧ (∀ g, gmon p = Some g → files w' !! "gmon.out" = Some g)
    ∧ cpp_files w' !! file_id = Some i
    ∧ json w' = json w
    ∧ trace w' = trace w ++ [EvLoad; EvSpawn [output_path i] custom_input].
Proof.
  intros Hi He Himg p (dur & Hd & Hle) Hdec Hinst.
  rewrite (run_program_gprof_absent _ _ _ _ _ _ _ Hi _ Himg _ He Hd Hle Hdec
             Hinst).
  eexists. split; [reflexivity|]. cbn [files cpp_files json trace].
  repeat split; try done.
  intros g Hg. unfold after_process. fold p. rewrite Hg.
  apply lookup_insert_eq.
Qed.

Lemma run_program_without_gprof_witness :
  ∃ w',
    run_program bare_env before_expiry "a" "7" None sample_world
    = (Raise (FileNotFoundError "gprof"), w')
    ∧ files w' !! "gmon.out" = Some "gmon-data".
Proof.
  destruct (run_program_without_gprof bare_env before_expiry "a" "7" None
              sample_world rec_a "BIN")
    as (w' & Hrun & _ & Hg & _); [done|done|done| |done|done|].
  { exists 5000. split; [reflexivity|]. unfold TIMEOUT. lia. }
  exists w'. split; [exact Hrun|]. by apply Hg.
Defined.

(** X8. [run_program] never adds a record and never alters one: what
    the dictionary or the JSON file holds for an id after the call, the
    JSON file held before it, expiration included.  After every call
    that returns a response, the dictionary and the JSON file agree. *)
Theorem run_program_store_invariants
    (env : Env) (clk : run_clock) (file_id custom_input : string)
    (expected_output : option string) (w : World) :
  let call := run_program env clk file_id custom_input expected_output w in
  (∀ j i, cpp_files (snd call) !! j = Some i → stored (json w) !! j = Some i)
  ∧ (∀ j i, stored (json (snd call)) !! j = Some i →
       stored (json w) !! j = Some i)
  ∧ (∀ r, fst call = Return r → synced (snd call)).
Proof.
  intros call. subst call.
  pose proof (run_program_branch env clk file_id custom_input
                expected_output w) as Hb.
  destruct (run_program _ _ _ _ _ _) as [r w'].
  inversion Hb; subst r w'; cbn [fst snd cpp_files json stored]; unfold synced;
    cbn [cpp_files json stored].
  all: split; [intros j i0; try done; by intros [_ ?]%lookup_delete_Some|].
  all: split; [intros j i0; try done; by intros [_ ?]%lookup_delete_Some|].
  all: by intros r [=].
Qed.

Lemma run_program_store_invariants_witness :
  synced (snd (run_program sample_env after_expiry "a" "" None
                 (mkWorld ∅ (Valid sample_store) sample_files []))).
Proof.
  eapply (proj2 (proj2 (run_program_store_invariants sample_env after_expiry
                          "a" "" None
                          (mkWorld ∅ (Valid sample_store) sample_files [])))).
  vm_compute. reflexivity.
Defined.

Lemma lifespan_witness :
  ∃ w',
    lifespan (now after_expiry)
      (mkWorld ∅ (Valid {[ "a" := rec_a ]}) sample_files [])
    = (Return (), w')
    ∧ cpp_files w' !! "a" = None.
Proof.
  destruct (proj2 (lifespan_spec (now after_expiry)
                     (mkWorld ∅ (Valid {[ "a" := rec_a ]}) sample_files []))
              {[ "a" := rec_a ]} eq_refl)
    as (w' & Hrun & _ & _ & Hlive & _).
  exists w'. split; [exact Hrun|].
  destruct (cpp_files w' !! "a") as [i|] eqn:Hi; [|reflexivity].
  destruct (Hlive "a" i Hi) as [Hs He].
  apply lookup_singleton_Some in Hs as [_ <-]. discriminate He.
Defined.

(** X9. After a successful run there is no gmon.out, also when one was
    there before the call (its removal is then among the events); every
    other file is as before. *)
Theorem run_program_success_removes_gmon
    (env : Env) (clk : run_clock) (file_id custom_input : string)
    (expected_output : option string) (w w' : World)
    (stdout stderr : string) (diff : option string) (run_time : Z)
    (report : string) :
  run_program env clk file_id custom_input expected_output w
  = (Return (Ran stdout stderr diff run_time report), w') →
  files w' !! "gmon.out" = None
  ∧ (∀ path, path ≠ "gmon.out" → files w' !! path = files w !! path)
  ∧ ∃ evs, trace w' = trace w ++ EvLoad :: evs
           ∧ (is_Some (files w !! "gmon.out") → EvRemove "gmon.out" ∈ evs).
Proof.
  intros Hrun.
  pose proof (run_program_branch env clk file_id custom_input
                expected_output w) as Hb.
  rewrite Hrun in Hb.
  invert_branch Hb; subst.
  cbn [files trace].
  split; [apply lookup_delete_eq|].
  split.
  { intros path Hne. rewrite lookup_delete_ne by done.
    by apply after_process_frame. }
  eexists. split; [reflexivity|]. intros Hstale.
  apply (after_process_is_Some p) in Hstale as [g Hg]. fold f in Hg.
  rewrite Hg. set_solver.
Qed.

Lemma run_program_success_removes_gmon_witness :
  files (snd (run_program sample_env before_expiry "c" "" None
                (mkWorld ∅ (Valid sample_store)
                   (<["gmon.out" := "stale"]> sample_files) [])))
    !! "gmon.out"
  = None.
Proof.
  destruct (run_program sample_env before_expiry "c" "" None
              (mkWorld ∅ (Valid sample_store)
                 (<["gmon.out" := "stale"]> sample_files) []))
    as [r w'] eqn:Hrun.
  assert (∃ so se df rt rep, r = Return (Ran so se df rt rep))
    as (so & se & df & rt & rep & ->).
  { vm_compute in Hrun. injection Hrun as <- _. by eauto 6. }
  by destruct (run_program_success_removes_gmon _ _ _ _ _ _ _ _ _ _ _ _ Hrun)
    as [Hg _].
Defined.

(** X10. An executable that is not stateful can be run again with the
    same result.  Take two calls in a row for the same record, not
    expired at either instant, with the same stdin, where the executable
    behaves at the second call as it did at the first, within the
    timeout and with output that decodes, and gprof works at both calls.
    Then both calls return a successful run with the same stdout and
    stderr, and the second call leaves the files as the first left them,
    the JSON file as it was before the first, and the dictionary as the
    first left it. *)
Theorem run_program_twice
    (env1 env2 : Env) (clk1 clk2 : run_clock) (file_id custom_input : string)
    (expected1 expected2 : option string) (w : World) (i : info)
    (image : string) :
  stored (json w) !! file_id = Some i →
  is_expired (now clk1) i = false →
  is_expired (now clk2) i = false →
  files w !! output_path i = Some image →
  output_path i ≠ "gmon.out" →
  let p := machine env1 image custom_input in
  machine env2 image custom_input = p →
  in_time p →
  decodes p = true →
  gprof_works env1 →
  gprof_works env2 →
  ∃ diff1 diff2 time1 time2 report1 report2 w1 w2,
    run_program env1 clk1 file_id custom_input expected1 w
    = (Return (Ran (p_stdout p) (p_stderr p) diff1 time1 report1), w1)
    ∧ run_program env2 clk2 file_id custom_input expected2 w1
      = (Return (Ran (p_stdout p) (p_stderr p) diff2 time2 report2), w2)
    ∧ files w2 = files w1
    ∧ json w2 = json w
    ∧ cpp_files w2 = cpp_files w1.
Proof.
  intros Hi He1 He2 Himg Hne p Hsame (dur & Hd & Hle) Hdec
    [Hinst1 Hgdec1] [Hinst2 Hgdec2].
  set (f := after_process p (files w)).
  set (w1 := mkWorld (stored (json w)) (json w) (delete "gmon.out" f)
               (trace w ++ [EvLoad; EvSpawn [output_path i] custom_input;
                            EvSpawn ["gprof"; output_path i; "gmon.out"] ""]
                        ++ match f !! "gmon.out" with
                           | Some _ => [EvRemove "gmon.out"]
                           | None => []
                           end)).
  assert (files w1 !! output_path i = Some image) as Himg1.
  { subst w1 f. cbn [files]. rewrite lookup_delete_ne by done.
    by rewrite after_process_frame. }
  assert (stored (json w1) !! file_id = Some i) as Hi1 by done.
  assert (delete "gmon.out" (after_process p (files w1)) = files w1) as Hfiles.
  { subst w1 f. cbn [files]. unfold after_process. destruct (gmon p).
    - by rewrite !delete_insert_eq, delete_delete_eq.
    - by rewrite delete_delete_eq. }
  assert (duration (machine env2 image custom_input) = Some dur) as Hd2
    by (by rewrite Hsame).
  assert (decodes (machine env2 image custom_input) = true) as Hdec2
    by (by rewrite Hsame).
  eexists _, _, _, _, _, _, w1, _.
  split.
  { exact (run_program_completed _ _ _ _ _ _ _ Hi _ Himg _ He1 Hd Hle Hdec
             Hinst1 (Hgdec1 _ _)). }
  split.
  { rewrite (run_program_completed _ _ _ _ _ _ _ Hi1 _ Himg1 _ He2 Hd2 Hle
               Hdec2 Hinst2 (Hgdec2 _ _)).
    rewrite Hsame. reflexivity. }
  cbn [files json cpp_files]. by rewrite Hfiles.
Qed.

Lemma run_program_twice_witness :
  ∃ diff1 diff2 time1 time2 report1 report2 w1 w2,
    run_program sample_env before_expiry "a" "7" None sample_world
    = (Return (Ran "out:7" "" diff1 time1 report1), w1)
    ∧ run_program sample_env at_expiry "a" "7" (Some "out:7") w1
      = (Return (Ran "out:7" "" diff2 time2 report2), w2).
Proof.
  destruct (run_program_twice sample_env sample_env before_expiry at_expiry
              "a" "7" None (Some "out:7") sample_world rec_a "BIN")
    as (d1 & d2 & t1 & t2 & r1 & r2 & w1 & w2 & H1 & H2 & _);
    [done|done|done|done|done|done| |done|done|done|].
  { exists 5000. split; [reflexivity|]. unfold TIMEOUT. lia. }
  exists d1, d2, t1, t2, r1, r2, w1, w2. split; [exact H1|exact H2].
Defined.

(** ** Calls of [create_program] *)



(** X12. A program that compiles can be run: after a successful
    [create_program], a [run_program] for the returned id at an instant
    not after the expiration, with a subprocess that exits in time and
    whose output decodes, and with a gprof that works, returns the
    successful run with the output of the executable that the compiler
    wrote. *)
Theorem create_program_then_run_program
    (env : Env) (bclk : build_clock) (rclk : run_clock)
    (content custom_input : string) (expected_output : option string)
    (w : World) :
  let c := clang env content in
  let p := machine env (cc_binary c) custom_input in
  cc_returncode c = 0 →
  str_lt (now_plus_one_day bclk) (now rclk) = false →
  in_time p →
  decodes p = true →
  gprof_works env →
  ∃ w1 report w2,
    create_program env bclk content w = (Return (Created (uuid4 bclk)), w1)
    ∧ run_program env rclk (uuid4 bclk) custom_input expected_output w1
      = (Return (Ran (p_stdout p) (p_stderr p)
                     (diff_of env expected_output (p_stdout p))
                     (end_time rclk - start_time rclk) report), w2).
Proof.
  intros c p Hrc He Hin Hdec Hgprof.
  rewrite (create_program_stored env bclk content w Hrc).
  set (w1 := mkWorld _ _ _ _). exists w1.
  edestruct (run_program_in_time env rclk (uuid4 bclk) custom_input
               expected_output w1) as (report & w2 & Hrun).
  - apply lookup_insert_eq.
  - exact He.
  - apply lookup_insert_eq.
  - exact Hin.
  - exact Hdec.
  - exact Hgprof.
  - eauto.
Qed.

Lemma create_program_then_run_program_witness :
  ∃ w1 report w2,
    create_program sample_env (BuildClock "u2" "2026-01-02T00:00:00") "ok"
      empty_world
    = (Return (Created "u2"), w1)
    ∧ run_program sample_env after_expiry "u2" "7" None w1
      = (Return (Ran "out:7" "" None 5000 report), w2).
Proof.
  apply (create_program_then_run_program sample_env
           (BuildClock "u2" "2026-01-02T00:00:00") after_expiry "ok" "7" None
           empty_world); [done|done| |done|done].
  exists 5000. split; [reflexivity|]. unfold TIMEOUT. lia.
Defined.

(** X13. After a failed compilation the id of the attempt is unknown:
    unless the JSON file already held it, [run_program] for it returns
    the not-found failure. *)
Theorem create_program_failure_registers_nothing
    (env : Env) (bclk : build_clock) (rclk : run_clock)
    (content custom_input : string) (expected_output : option string)
    (w : World) :
  cc_returncode (clang env content) ≠ 0 →
  stored (json w) !! uuid4 bclk = None →
  let w1 := snd (create_program env bclk content w) in
  fst (run_program env rclk (uuid4 bclk) custom_input expected_output w1)
  = Return (Failure "File ID not found.").
Proof.
  intros Hrc Hfresh.
  rewrite (create_program_failed env bclk content w Hrc). cbn [snd].
  by rewrite run_program_not_found.
Qed.

Lemma create_program_failure_registers_nothing_witness :
  fst (run_program sample_env before_expiry "u1" "" None
         (snd (create_program sample_env (BuildClock "u1" "2026-01-02T00:00:00")
                 "int main() { return 0 }" sample_world)))
  = Return (Failure "File ID not found.").
Proof.
  apply (create_program_failure_registers_nothing sample_env
           (BuildClock "u1" "2026-01-02T00:00:00") before_expiry
           "int main() { return 0 }" "" None sample_world); done.
Defined.

(** ** The string steps of [run_program] *)

Lemma collapse_pairs_other c s :
  c ≠ " "%char → collapse_pairs (String c s) = String c (collapse_pairs s).
Proof.
  intros Hc. rewrite collapse_pairs_cons. destruct s as [|c' s']; [done|].
  destruct (Ascii.eqb_spec c " "); [done|reflexivity].
Qed.

Lemma collapse_pairs_spaces n c r :
  c ≠ " "%char →
  collapse_pairs (spaces n +:+ String c r)
  = spaces (Nat.div2 (S n)) +:+ String c (collapse_pairs r).
Proof.
  intros Hc.
  assert (collapse_pairs (spaces n +:+ String c r)
          = spaces (Nat.div2 (S n)) +:+ String c (collapse_pairs r)
          ∧ collapse_pairs (spaces (S n) +:+ String c r)
            = spaces (Nat.div2 (S (S n))) +:+ String c (collapse_pairs r))
    as [H _]; [|exact H].
  induction n as [|n [IH1 IH2]].
  - split.
    + change (collapse_pairs (String c r) = String c (collapse_pairs r)).
      by apply collapse_pairs_other.
    + change (collapse_pairs (String " " (String c r))
              = String " " (String c (collapse_pairs r))).
      rewrite collapse_pairs_cons.
      destruct (Ascii.eqb_spec c " "); [done|]. cbn [andb].
      by rewrite collapse_pairs_other.
  - split; [exact IH2|].
    change (collapse_pairs (String " " (String " " (spaces n +:+ String c r)))
            = String " " (spaces (Nat.div2 (S n)) +:+ String c (collapse_pairs r))).
    rewrite collapse_pairs_cons. cbn [Ascii.eqb Bool.eqb andb].
    by rewrite IH1.
Qed.

Lemma collapse_pairs_only_spaces n :
  collapse_pairs (spaces n) = spaces (Nat.div2 (S n)).
Proof.
  assert (collapse_pairs (spaces n) = spaces (Nat.div2 (S n))
          ∧ collapse_pairs (spaces (S n)) = spaces (Nat.div2 (S (S n))))
    as [H _]; [|exact H].
  induction n as [|n [IH1 IH2]]; [by split|].
  split; [exact IH2|].
  change (collapse_pairs (String " " (String " " (spaces n)))
          = String " " (spaces (Nat.div2 (S n)))).
  rewrite collapse_pairs_cons. cbn [Ascii.eqb Bool.eqb andb].
  by rewrite IH1.
Qed.

Lemma half_step a m :
  m ≠ 0%nat → Nat.div2 (S (a / m)) = ((a + m) / (2 * m))%nat.
Proof.
  intros Hm. rewrite Nat.div2_div.
  replace (S (a / m)) with ((a + 1 * m) / m)%nat
    by (rewrite Nat.div_add by exact Hm; apply Nat.add_1_r).
  rewrite Nat.mul_1_l, Nat.Div0.div_div. f_equal. apply Nat.mul_comm.
Qed.

Lemma four_halvings n :
  Nat.div2 (S (Nat.div2 (S (Nat.div2 (S (Nat.div2 (S n)))))))
  = ((n + 15) / 16)%nat.
Proof.
  replace (Nat.div2 (S n)) with ((n + 1) / 2)%nat
    by (rewrite Nat.div2_div; f_equal; lia).
  rewrite (half_step (n + 1) 2) by lia.
  rewrite (half_step (n + 1 + 2) (2 * 2)) by lia.
  rewrite (half_step (n + 1 + 2 + 2 * 2) (2 * (2 * 2))) by lia.
  f_equal; lia.
Qed.

(** X15. The four [replace] passes turn a run of [n] spaces into a run
    of [(n + 15) / 16] spaces, rounded up, and leave other characters in
    place: runs of up to 16 spaces become one space, a run of 17 keeps
    two. *)
Theorem collapse4_runs_of_spaces (n : nat) (c : ascii) (r : string) :
  c ≠ " "%char →
  collapse4 (String c r) = String c (collapse4 r)
  ∧ collapse4 (spaces n +:+ String c r)
    = spaces ((n + 15) / 16) +:+ String c (collapse4 r)
  ∧ collapse4 (spaces n) = spaces ((n + 15) / 16).
Proof.
  intros Hc. rewrite !collapse4_iter. cbn [Nat.iter nat_rect].
  split; [by rewrite !collapse_pairs_other|].
  split.
  - rewrite !collapse_pairs_spaces by done. by rewrite four_halvings.
  - rewrite !collapse_pairs_only_spaces. by rewrite four_halvings.
Qed.

Lemma collapse4_runs_of_spaces_witness :
  collapse4 (spaces 16 +:+ "x") = " x" ∧ collapse4 (spaces 17 +:+ "x") = "  x".
Proof.
  split.
  - apply (collapse4_runs_of_spaces 16 "x" ""). discriminate.
  - apply (collapse4_runs_of_spaces 17 "x" ""). discriminate.
Defined.


(** X16. The lines handed to [unified_diff] lose nothing: joined again
    they are the text that was split, and none of them is empty. *)
Theorem splitlines_join (s : string) :
  str_join "" (splitlines s) = s ∧ Forall (λ l, l ≠ "") (splitlines s).
Proof.
  induction s as [|c r [IHj IHn]]; [by split|].
  cbn [splitlines].
  destruct (is_linebreak c && negb _).
  - split; [by rewrite str_join_cons, IHj|].
    constructor; [done|exact IHn].
  - destruct (splitlines r) as [|l ls].
    + cbn in IHj. subst r. split; [reflexivity|]. by repeat constructor.
    + rewrite str_join_cons in IHj. split.
      * rewrite str_join_cons. by rewrite <- IHj.
      * apply Forall_cons in IHn as [_ IHn]. by constructor.
Qed.
